(** * Verification of the F-150 expert agent's LangGraph orchestration

    Shallow embedding of the Python sources under [src/src]:
    - [utils/conversational_filter.py]  (pre-filter node),
    - [graph/f150_graph.py]             (router functions and graph wiring),
    - [graph/token_tracking_node.py]    (context tracker node),
    - [utils/approval_node.py]          (human approval gate),
    - [graph/rag_agent_node.py]         (agentic retrieval node),
    - [graph/chat_agent_node.py]        (chat / orchestrator node),
    - [tools/manual_search.py]          (manual-search tool, run by the
                                          graph's [ToolNode]).

    Python [str] values are modelled as Rocq [string]s whose characters are
    read as Latin-1 code points (0..255); [str.lower], [str.strip] and the
    regex class [\s] follow Python on that range.  The language model, the
    vector store and the tool node are oracles (functions supplied by the
    caller).  The context tracker's usage percentage is modelled with
    exact rationals; the console progress bar, whose cell count truncates a
    float product, is modelled with IEEE 754 binary64 arithmetic (Rocq's
    primitive floats, which is what a Python [float] is). *)

From Stdlib Require Import Bool Arith ZArith QArith List Lia.
From Stdlib Require Import Strings.String Strings.Ascii.
From Stdlib Require Import Numbers.DecimalString.
From Stdlib Require Floats.PrimFloat Floats.SpecFloat Floats.FloatOps.
Import ListNotations.
Open Scope nat_scope.
Open Scope list_scope.
Open Scope string_scope.
#[local] Set Warnings "-register-all".

(* ================================================================= *)
(** ** Python string primitives *)

Module Py.

  Local Open Scope nat_scope.

  (** [str.isspace] on Latin-1: \t \n \v \f \r, the separators
      \x1c..\x1f, space, \x85 and the no-break space \xa0.  This is also
      the set matched by the regex class [\s] on [str] patterns. *)
Definition isspace (c : ascii) : bool :=
    let n := nat_of_ascii c in
    ((9 <=? n) && (n <=? 13)) || ((28 <=? n) && (n <=? 32))
    || (n =? 133) || (n =? 160).

  (** [str.lower] on Latin-1: A..Z and the accented capitals
      \xc0..\xde except the multiplication sign \xd7. *)
Definition lower_char (c : ascii) : ascii :=
    let n := nat_of_ascii c in
    if ((65 <=? n) && (n <=? 90))
       || ((192 <=? n) && (n <=? 222) && negb (n =? 215))
    then ascii_of_nat (n + 32) else c.

Fixpoint lower (s : string) : string :=
    match s with
    | EmptyString => EmptyString
    | String c s' => String (lower_char c) (lower s')
    end.

  (** [str.lstrip(chars)] with a character predicate. *)
Fixpoint lstrip_by (p : ascii -> bool) (s : string) : string :=
    match s with
    | EmptyString => EmptyString
    | String c s' => if p c then lstrip_by p s' else s
    end.

Definition rev_string (s : string) : string :=
    string_of_list_ascii (rev (list_ascii_of_string s)).

Definition rstrip_by (p : ascii -> bool) (s : string) : string :=
    rev_string (lstrip_by p (rev_string s)).

Definition strip_by (p : ascii -> bool) (s : string) : string :=
    rstrip_by p (lstrip_by p s).

  (** [str.strip()] *)
Definition strip (s : string) : string := strip_by isspace s.

  (** [s.startswith(p)] *)
Definition startswith (s p : string) : bool := String.prefix p s.

  (** [s[n:]] for a non-negative [n] *)
Definition slice_from (n : nat) (s : string) : string :=
    substring n (length s - n) s.

  (** [s[:n]] for a non-negative [n] *)
Definition slice_to (n : nat) (s : string) : string := substring 0 n s.

  (** [sub in s] *)
Fixpoint contains (sub s : string) : bool :=
    String.prefix sub s ||
    match s with
    | EmptyString => false
    | String _ s' => contains sub s'
    end.

  (** [s.replace(old, new)] for a non-empty [old]: left-to-right,
      non-overlapping replacement of every occurrence. *)
Fixpoint replace_fuel (fuel : nat) (old new s : string) : string :=
    match fuel with
    | O => s
    | S f =>
      match s with
      | EmptyString => EmptyString
      | String c s' =>
        if String.prefix old s
        then new ++ replace_fuel f old new (slice_from (length old) s)
        else String c (replace_fuel f old new s')
      end
    end.

Definition replace (s old new : string) : string :=
    replace_fuel (length s) old new s.

  (** [str(n)] for an integer *)
Definition str_of_Z (z : Z) : string := NilEmpty.string_of_int (Z.to_int z).
Definition str_of_nat (n : nat) : string := str_of_Z (Z.of_nat n).

  (** A Python value received as a resume payload. *)
Inductive value : Type :=
  | VBool (b : bool)
  | VInt (z : Z)
  | VStr (s : string)
  | VNone
  | VDict (kv : list (string * value)).

  (** [d.get(k)] on a dict with string keys: [None] when absent. *)
Fixpoint dict_get (k : string) (kv : list (string * value)) : value :=
    match kv with
    | [] => VNone
    | (k', v) :: kv' => if String.eqb k k' then v else dict_get k kv'
    end.

  (** [v is False]: identity with the [False] singleton. *)
Definition is_False (v : value) : bool :=
    match v with VBool false => true | _ => false end.

End Py.

(* ================================================================= *)
(** ** Messages, tool calls and graph state *)

(** A LangChain tool call: [{name, args, id}]; [args] maps argument
    names to their (string) values. *)
Record tool_call : Type := mk_tool_call {
  tc_name : string;
  tc_args : list (string * string);
  tc_id : string
}.

(** The message classes used by the graph.  [response_metadata] of an
    [AIMessage] is Ollama's metadata dict restricted to its integer
    entries. *)
Inductive message : Type :=
| HumanMessage (content : string)
| AIMessage (content : string) (tool_calls : list tool_call)
            (response_metadata : list (string * Z))
| ToolMessage (content : string) (tool_call_id : string)
| SystemMessage (content : string).

Definition content_of (m : message) : string :=
  match m with
  | HumanMessage c | AIMessage c _ _ | ToolMessage c _ | SystemMessage c => c
  end.

(** [msg.tool_calls] where the attribute exists (AI messages), [[]]
    where [hasattr(msg, 'tool_calls')] is false. *)
Definition tool_calls_of (m : message) : list tool_call :=
  match m with AIMessage _ tcs _ => tcs | _ => [] end.

(** A retrieved chunk: [page_content] and [metadata['page']]. *)
Record document : Type := mk_document {
  page_content : string;
  page : option Z
}.

(** [F150StateWithDualContext] (a superset of [F150StateWithTokens]).
    A key missing from the checkpoint reads as its [.get] default, which is
    the initial value below. *)
Record state : Type := mk_state {
  messages : list message;
  rag_context : string;
  retrieved_documents : list document;
  total_tokens : Z;
  total_prompt_tokens : Z;
  total_completion_tokens : Z;
  context_limit : Z;
  bypass_agent : bool
}.

Definition initial_state (msgs : list message) : state :=
  mk_state msgs "" [] 0 0 0 128000 false.

(** The dict a node returns: [None] = key absent.  The [messages] key goes
    through LangGraph's [add_messages] reducer, which appends messages with
    fresh ids; an absent key is the empty list. *)
Record update : Type := mk_update {
  u_messages : list message;
  u_rag_context : option string;
  u_retrieved_documents : option (list document);
  u_total_tokens : option Z;
  u_total_prompt_tokens : option Z;
  u_total_completion_tokens : option Z;
  u_context_limit : option Z;
  u_bypass_agent : option bool
}.

Definition empty_update : update :=
  mk_update [] None None None None None None None.

Definition upd {A} (o : option A) (a : A) : A :=
  match o with Some x => x | None => a end.

Definition apply_update (u : update) (s : state) : state :=
  mk_state ((messages s ++ u_messages u)%list)
           (upd (u_rag_context u) (rag_context s))
           (upd (u_retrieved_documents u) (retrieved_documents s))
           (upd (u_total_tokens u) (total_tokens s))
           (upd (u_total_prompt_tokens u) (total_prompt_tokens s))
           (upd (u_total_completion_tokens u) (total_completion_tokens s))
           (upd (u_context_limit u) (context_limit s))
           (upd (u_bypass_agent u) (bypass_agent s)).


(* ================================================================= *)
(** ** Context tracker: [graph/token_tracking_node.py] *)

Module TokenTracking.

  (** What the node prints to the console. *)
Inductive console_line : Type :=
  | TrackingUnavailable
  | UsageReport (prompt completion interaction cumulative limit : Z)
                (usage_percentage : Q) (remaining : Z).

  (** [metadata.get(key, 0)] *)
Fixpoint meta_get (k : string) (md : list (string * Z)) : Z :=
    match md with
    | [] => 0%Z
    | (k', v) :: md' => if String.eqb k k' then v else meta_get k md'
    end.

  (** The loop [for msg in reversed(messages): if isinstance(msg, AIMessage)
      and hasattr(msg, 'response_metadata')]: every AI message has the
      attribute (default [{}]), so this is the last AI message. *)
Definition last_ai_metadata (msgs : list message) : option (list (string * Z)) :=
    fold_left (fun acc m =>
                 match m with AIMessage _ _ md => Some md | _ => acc end)
              msgs None.

  Section Tracker.

    (** The f-string [f"{usage_percentage:.1f}%, {remaining_tokens:,} tokens
        remaining"] shared by the three advisories. *)
Variable format_usage : Q -> Z -> string.

    (** [_get_warning_message(usage_percentage, remaining_tokens)] *)
Definition _get_warning_message (usage_percentage : Q) (remaining_tokens : Z)
      : option string :=
      let detail := format_usage usage_percentage remaining_tokens in
      if Qle_bool 95 usage_percentage then
        Some ("⚠️ CRITICAL: Context nearly full (" ++ detail
              ++ "). Consider starting a new conversation.")
      else if Qle_bool 80 usage_percentage then
        Some ("⚠️ WARNING: Context usage is high (" ++ detail ++ ").")
      else if Qle_bool 60 usage_percentage then
        Some ("ℹ️ Context usage is moderate (" ++ detail ++ ").")
      else None.

    (** [token_tracking_node] built by
        [create_token_tracking_node(context_limit, warning_threshold)].
        [None] is the [ZeroDivisionError] of [new_total_tokens / context_limit];
        otherwise the returned dict and the lines printed. *)
Definition token_tracking_node (context_limit_arg : Z)
               (warning_threshold : Q) (st : state)
      : option (update * list console_line) :=
      match last_ai_metadata (messages st) with
      | None => Some (empty_update, [])
      | Some metadata =>
        let prompt_tokens := meta_get "prompt_eval_count" metadata in
        let completion_tokens := meta_get "eval_count" metadata in
        if Z.eqb prompt_tokens 0 && Z.eqb completion_tokens 0 then
          Some (empty_update, [TrackingUnavailable])
        else
          let new_total_prompt := (total_prompt_tokens st + prompt_tokens)%Z in
          let new_total_completion :=
            (total_completion_tokens st + completion_tokens)%Z in
          let new_total_tokens := (new_total_prompt + new_total_completion)%Z in
          if Z.eqb context_limit_arg 0 then None else
          let usage_percentage :=
            ((inject_Z new_total_tokens / inject_Z context_limit_arg) * 100)%Q in
          let remaining_tokens := (context_limit_arg - new_total_tokens)%Z in
          let report :=
            UsageReport prompt_tokens completion_tokens
                        (prompt_tokens + completion_tokens) new_total_tokens
                        context_limit_arg usage_percentage remaining_tokens in
          let warning := _get_warning_message usage_percentage remaining_tokens in
          Some (mk_update
                  (match warning with
                   | Some w => [SystemMessage w]
                   | None => []
                   end)
                  None None (Some new_total_tokens) (Some new_total_prompt)
                  (Some new_total_completion) (Some context_limit_arg) None,
                [report])
      end.

  End Tracker.

End TokenTracking.

(* ================================================================= *)
(** ** Approval gate: [utils/approval_node.py] *)

Module Approval.

  (** [_build_approval_prompt(tool_calls)]: the interrupt payload. *)
Record approval_request : Type := mk_request {
    req_type : string;
    req_tools : list tool_call;
    req_message : string
  }.

Definition _build_approval_prompt (tcs : list tool_call) : approval_request :=
    mk_request "tool_approval_request" tcs
               ("Approve execution of " ++ Py.str_of_nat (List.length tcs)
                ++ " tool(s)?").

  (** [interrupt(approval_prompt)]: the node suspends with the payload and
      is re-entered on resume with the caller's decision, modelled as an
      explicit continuation. *)
Inductive gate_result : Type :=
  | Pass (u : update)
  | Suspend (request : approval_request) (resume : Py.value -> update).

Definition rejection_content : string :=
    "[SYSTEM: The requested tool calls were not approved. Please respond to the user's question directly without using tools.]".

  (** The test [approval_decision is False or (isinstance(approval_decision,
      dict) and approval_decision.get("approved") is False)]. *)
Definition is_rejection (d : Py.value) : bool :=
    Py.is_False d ||
    match d with
    | Py.VDict kv => Py.is_False (Py.dict_get "approved" kv)
    | _ => false
    end.

  (** The code after [interrupt] returns. *)
Definition on_decision (d : Py.value) : update :=
    if is_rejection d then
      mk_update [AIMessage rejection_content [] []]
                None None None None None None None
    else empty_update.

  (** [approval_node] built by [create_approval_node(enabled)]; [None] is
      the [IndexError] of [messages[-1]] on an empty history. *)
Definition approval_node (enabled : bool) (st : state) : option gate_result :=
    if negb enabled then Some (Pass empty_update) else
    match last (map Some (messages st)) None with
    | None => None
    | Some last_message =>
      match tool_calls_of last_message with
      | [] => Some (Pass empty_update)
      | tool_calls =>
        Some (Suspend (_build_approval_prompt tool_calls) on_decision)
      end
    end.

  (** Resuming a suspended gate with a decision. *)
Definition resume (enabled : bool) (st : state) (d : Py.value) : option state :=
    match approval_node enabled st with
    | Some (Suspend _ k) => Some (apply_update (k d) st)
    | _ => None
    end.

End Approval.

(* ================================================================= *)
(** ** Pre-filter: [utils/conversational_filter.py] *)

Module Filter.

  (** Membership in the regex class [[\s!.]]. *)
Definition tail_char (c : ascii) : bool :=
    Py.isspace c || Ascii.eqb c "!" || Ascii.eqb c ".".

Fixpoint all_chars (p : ascii -> bool) (s : string) : bool :=
    match s with
    | EmptyString => true
    | String c s' => p c && all_chars p s'
    end.

  (** The two shapes of [conversational_patterns]:
      [^(a1|...|an)[\s!.]*$] and
      [^(a1|...|an)\s*(b1|...|bm)[\s!.]*$]. *)
Inductive pattern : Type :=
  | Phrase (alts : list string)
  | PhraseThanks (alts1 alts2 : list string).

  (** [(a1|...|an)X] matches [s] when some alternative is a prefix of [s]
      and [X] matches the rest (backtracking over the alternatives). *)
Definition alt_then (alts : list string) (k : string -> bool) (s : string) : bool :=
    existsb (fun a => String.prefix a s && k (Py.slice_from (length a) s)) alts.

  (** [[\s!.]*$]; [$] may also match before a final newline, which the
      class already absorbs. *)
Definition tail_match (s : string) : bool := all_chars tail_char s.

  (** [\s*X]: some prefix of whitespace, then [X]. *)
Definition spaces_then (k : string -> bool) (s : string) : bool :=
    existsb (fun n => all_chars Py.isspace (Py.slice_to n s)
                      && k (Py.slice_from n s))
            (seq 0 (S (length s))).

  (** [re.match(pattern, s)] for an anchored pattern. *)
Definition re_match (p : pattern) (s : string) : bool :=
    match p with
    | Phrase alts => alt_then alts tail_match s
    | PhraseThanks alts1 alts2 =>
      alt_then alts1 (spaces_then (alt_then alts2 tail_match)) s
    end.

Definition conversational_patterns : list pattern := [
    (* Greetings *)
    Phrase ["hi"; "hello"; "hey"; "sup"; "yo"; "howdy"];
    (* Thanks *)
    Phrase ["thank you"; "thanks"; "thx"; "ty"; "thank u"; "tysm"; "appreciate it"];
    (* Acknowledgments *)
    Phrase ["great"; "ok"; "okay"; "got it"; "cool"; "nice"; "perfect";
            "awesome"; "excellent"];
    (* Combined acknowledgment + thanks *)
    PhraseThanks ["great"; "ok"; "okay"; "cool"; "nice"; "perfect"; "awesome"]
                 ["thank you"; "thanks"; "thx"];
    (* Farewells *)
    Phrase ["bye"; "goodbye"; "see you"; "later"; "cya"; "take care"];
    (* Affirmations *)
    Phrase ["yes"; "yeah"; "yep"; "yup"; "sure"; "alright"];
    Phrase ["no"; "nope"; "nah"]
  ].

  (** [is_conversational_only(text)] *)
Definition is_conversational_only (text : string) : bool :=
    let text_lower := Py.strip (Py.lower text) in
    existsb (fun p => re_match p text_lower) conversational_patterns.

Definition response_map : list (string * string) := [
    ("thank", "You're welcome! Let me know if you have any other questions about your F-150!");
    ("great", "Glad I could help! Feel free to ask anything else about your 2018 F-150.");
    ("ok", "Great! Let me know if there's anything else I can help with.");
    ("hi", "Hello! How can I help you with your 2018 F-150 today?");
    ("hello", "Hello! How can I help you with your 2018 F-150 today?");
    ("hey", "Hey there! What can I help you with regarding your F-150?");
    ("bye", "Goodbye! Come back anytime you have F-150 questions!");
    ("yes", "Got it! Anything else you'd like to know?");
    ("no", "No problem! Let me know if you need anything.")
  ].

  (** [get_conversational_response(text)] *)
Definition get_conversational_response (text : string) : string :=
    let text_lower := Py.strip (Py.lower text) in
    match find (fun kr => Py.contains (fst kr) text_lower) response_map with
    | Some (_, response) => response
    | None => "You're welcome! Feel free to ask if you have any questions about your 2018 F-150."
    end.

  (** The content of the last [HumanMessage], if any. *)
Definition last_user_message (msgs : list message) : option string :=
    fold_left (fun acc m =>
                 match m with HumanMessage c => Some c | _ => acc end)
              msgs None.

  (** [pre_filter_node] built by [create_conversational_filter_node(domain_name)]. *)
Definition pre_filter_node (domain_name : string) (st : state) : update :=
    match last_user_message (messages st) with
    | Some text =>
      if is_conversational_only text then
        let response_text := get_conversational_response text in
        let response_text :=
          if negb (String.eqb domain_name "") && negb (String.eqb domain_name "F-150")
          then Py.replace (Py.replace response_text "F-150" domain_name)
                          "2018 F-150" domain_name
          else response_text in
        mk_update [AIMessage response_text [] []]
                  None None None None None None (Some true)
      else mk_update [] None None None None None None (Some false)
    | None => mk_update [] None None None None None None (Some false)
    end.

End Filter.

(* ================================================================= *)
(** ** Graph wiring: [graph/f150_graph.py] *)

Module Graph.

  (** Node names, as the string literals of [create_f150_graph]; [END] is
      LangGraph's end marker. *)
Definition END : string := "__end__".
Definition PRE_FILTER : string := "pre_filter".
Definition AGENT : string := "agent".
Definition TOOLS : string := "tools".
Definition TOKEN_TRACKER : string := "token_tracker".

  (** [should_bypass_agent(state)] *)
Definition should_bypass_agent (st : state) : string :=
    if bypass_agent st then END else AGENT.

  (** [should_continue(state)]: [messages[-1]] raises [IndexError] on an
      empty history and [.tool_calls] raises [AttributeError] on a message
      without that attribute; both are [None]. *)
Definition should_continue (st : state) : option string :=
    match last (map Some (messages st)) None with
    | Some (AIMessage _ tool_calls _) =>
      match tool_calls with
      | [] => Some TOKEN_TRACKER
      | _ => Some TOOLS
      end
    | _ => None
    end.

  Section Wiring.

    (** [llm_with_tools.invoke(messages)]: content, tool calls and response
        metadata of the returned [AIMessage]. *)
Variable llm_with_tools :
      list message -> string * list tool_call * list (string * Z).
    (** [ToolNode(tools)] run on the state. *)
Variable tool_node : state -> update.
    (** The content of [system_message]. *)
Variable system_prompt : string.
    (** Number formatting of the token advisories. *)
Variable format_usage : Q -> Z -> string.

    (** [call_model(state)] *)
Definition call_model (st : state) : update :=
      let msgs :=
        match messages st with
        | SystemMessage _ :: _ => messages st
        | _ => SystemMessage system_prompt :: messages st
        end in
      let '(c, tcs, md) := llm_with_tools msgs in
      mk_update [AIMessage c tcs md] None None None None None None None.

    (** [Config.CONTEXT_LIMIT] *)
Definition CONTEXT_LIMIT : Z := 128000.

    (** Running one node on the state; [None] when the node raises. *)
Definition run_node (node : string) (st : state) : option state :=
      if String.eqb node PRE_FILTER then
        Some (apply_update (Filter.pre_filter_node "2018 F-150" st) st)
      else if String.eqb node AGENT then
        Some (apply_update (call_model st) st)
      else if String.eqb node TOOLS then
        Some (apply_update (tool_node st) st)
      else if String.eqb node TOKEN_TRACKER then
        match TokenTracking.token_tracking_node format_usage CONTEXT_LIMIT 80 st with
        | Some (u, _) => Some (apply_update u st)
        | None => None
        end
      else None.

    (** The edges added by [create_f150_graph]. *)
Definition next_node (node : string) (st : state) : option string :=
      if String.eqb node PRE_FILTER then Some (should_bypass_agent st)
      else if String.eqb node AGENT then should_continue st
      else if String.eqb node TOOLS then Some AGENT
      else if String.eqb node TOKEN_TRACKER then Some END
      else None.

Inductive outcome : Type :=
    | Finished (st : state) (trace : list string)
    | Crashed (trace : list string)
    | OutOfFuel.

    (** Execution of the compiled graph from [node]; [trace] lists the nodes
        run so far, most recent first. *)
Fixpoint run (fuel : nat) (node : string) (st : state) (trace : list string)
      : outcome :=
      match fuel with
      | O => OutOfFuel
      | S f =>
        if String.eqb node END then Finished st (rev trace) else
        match run_node node st with
        | None => Crashed (rev (node :: trace))
        | Some st' =>
          match next_node node st' with
          | None => Crashed (rev (node :: trace))
          | Some nxt => run f nxt st' (node :: trace)
          end
        end
      end.

    (** [graph.invoke({"messages": [HumanMessage(content=user_input)]})]. *)
Definition invoke (fuel : nat) (st : state) (user_input : string) : outcome :=
      run fuel PRE_FILTER
          (apply_update (mk_update [HumanMessage user_input]
                                   None None None None None None None) st) [].

  End Wiring.

End Graph.

(* ================================================================= *)
(** ** Agentic retrieval: [graph/rag_agent_node.py] *)

Module Rag.

  (** The two prompts the node sends to the language model (their f-string
      templates are fixed; only the interpolated values vary). *)
Inductive prompt : Type :=
  | ReformulationPrompt (query : string)
  | AssessmentPrompt (query : string) (excerpt : string).

  (** Calls to the collaborators, in the order they are made. *)
Inductive event : Type :=
  | ESearch (query : string) (k : nat)
  | ECompletion (p : prompt).

  (** A writer monad recording the calls. *)
Definition M (A : Type) : Type := list event -> A * list event.

Definition ret {A} (a : A) : M A := fun log => (a, log).

Definition bind {A B} (m : M A) (f : A -> M B) : M B :=
    fun log => let '(a, log') := m log in f a log'.

  Notation "x <- m ;; k" := (bind m (fun x => k))
    (at level 61, m at next level, right associativity).

Definition run {A} (m : M A) : A * list event := m [].

Definition nl : string := String (ascii_of_nat 10) EmptyString.

  (** [sep.join(parts)] *)
Fixpoint join (sep : string) (parts : list string) : string :=
    match parts with
    | [] => ""
    | [x] => x
    | x :: rest => x ++ sep ++ join sep rest
    end.

Definition search_tool_name : string := "search_f150_manual".

  (** [_extract_rag_tool_call(messages)]: [None] is [(None, None)]. *)
Fixpoint extract_from_reversed (rmsgs : list message) : option (string * string) :=
    match rmsgs with
    | [] => None
    | msg :: rest =>
      match find (fun tc => String.eqb (tc_name tc) search_tool_name)
                 (tool_calls_of msg) with
      | Some tc =>
        Some (upd (option_map snd (find (fun kv => String.eqb (fst kv) "question")
                                         (tc_args tc))) "",
              tc_id tc)
      | None => extract_from_reversed rest
      end
    end.

Definition _extract_rag_tool_call (msgs : list message) : option (string * string) :=
    extract_from_reversed (rev msgs).

Definition preambles : list string := [
    "here's a reformulated query:";
    "reformulated query:";
    "here is the reformulated query:";
    "reformulated:"
  ].

  (** The character set of [.strip(...)] after the preamble: the double
      quote (34) and the single quote (39). *)
Definition is_quote (c : ascii) : bool :=
    Ascii.eqb c (ascii_of_nat 34) || Ascii.eqb c (ascii_of_nat 39).

  (** [_format_rag_context(documents)] *)
Definition _format_rag_context (documents : list document) : string :=
    match documents with
    | [] => ""
    | _ =>
      let excerpt i doc :=
        "[Excerpt " ++ Py.str_of_nat i ++ " - Page "
        ++ match page doc with Some p => Py.str_of_Z p | None => "unknown" end
        ++ "]" ++ nl ++ Py.strip (page_content doc) ++ nl in
      let fix excerpts i docs :=
        match docs with
        | [] => []
        | d :: ds => excerpt i d :: excerpts (S i) ds
        end in
      join nl (("=== RETRIEVED CONTEXT FROM F-150 MANUAL ===" ++ nl)
               :: app (excerpts 1 documents)
                     [("=== END OF RETRIEVED CONTEXT ===" ++ nl)])
    end.

Definition no_relevant_response : string :=
    "No relevant information found in the F-150 Owner's Manual for this query.".

Definition retrieved_response (n : nat) : string :=
    "Retrieved " ++ Py.str_of_nat n ++ " relevant sections from the manual.".

  Section Node.

    (** [llm.invoke([HumanMessage(content=prompt)]).content]; [None] when
        the call raises. *)
Variable llm : prompt -> option string.
    (** [vector_store.similarity_search(query, k)]; [None] when the node was
        built with [vector_store=None]. *)
Variable vector_store : option (string -> nat -> list document).

Definition invoke (p : prompt) : M (option string) :=
      fun log => (llm p, app log [ECompletion p]).

Definition similarity_search (vs : string -> nat -> list document)
               (q : string) (k : nat) : M (list document) :=
      fun log => (vs q k, app log [ESearch q k]).

    (** [_reformulate_query(query, llm)] *)
Definition _reformulate_query (query : string) : M string :=
      r <- invoke (ReformulationPrompt query) ;;
      match r with
      | None => ret query
      | Some content =>
        let reformulated := Py.strip content in
        let reformulated_lower := Py.lower reformulated in
        let reformulated :=
          match find (fun pre => Py.startswith reformulated_lower pre) preambles with
          | Some pre =>
            Py.strip_by is_quote
              (Py.strip (Py.slice_from (length pre) reformulated))
          | None => reformulated
          end in
        ret (if String.eqb reformulated "" then query else reformulated)
      end.

    (** The loop of [_assess_relevance] over [documents[:10]]. *)
Fixpoint assess_loop (query : string) (docs : list document)
             (relevant : list document) : M (list document) :=
      match docs with
      | [] => ret relevant
      | doc :: rest =>
        r <- invoke (AssessmentPrompt query (Py.slice_to 500 (page_content doc))) ;;
        let relevant :=
          match r with
          | None => (relevant ++ [doc])%list
          | Some c => if Py.contains "yes" (Py.lower c) then (relevant ++ [doc])%list
                      else relevant
          end in
        assess_loop query rest relevant
      end.

    (** [_assess_relevance(documents, query, llm)] *)
Definition _assess_relevance (documents : list document) (query : string)
      : M (list document) :=
      match documents with
      | [] => ret []
      | _ =>
        if Nat.leb (List.length documents) 5 then ret documents else
        relevant <- assess_loop query (firstn 10 documents) [] ;;
        ret (firstn 5 relevant)
      end.

Definition tool_result (rag : string) (docs : list document)
               (content id : string) : update :=
      mk_update [ToolMessage content id] (Some rag) (Some docs)
                None None None None None.

    (** [agentic_rag_node(state)] built by
        [create_agentic_rag_node(vector_store, llm)]. *)
Definition agentic_rag_node (st : state) : M update :=
      match _extract_rag_tool_call (messages st) with
      | None => ret (tool_result "" [] "Error: No search query found" "unknown")
      | Some (query, tool_call_id) =>
        if String.eqb query "" then
          ret (tool_result "" [] "Error: No search query found"
                           (if String.eqb tool_call_id "" then "unknown"
                            else tool_call_id))
        else
        match vector_store with
        | None => ret (tool_result "" [] "Error: Manual not loaded" tool_call_id)
        | Some vs =>
          reformulated_query <- _reformulate_query query ;;
          results <- similarity_search vs reformulated_query 5 ;;
          relevant_docs <- _assess_relevance results query ;;
          relevant_docs <-
            (if Nat.ltb (List.length relevant_docs) 2
                && negb (String.eqb reformulated_query query)
             then results <- similarity_search vs query 8 ;;
                  _assess_relevance results query
             else ret relevant_docs) ;;
          let tool_response :=
            match relevant_docs with
            | [] => no_relevant_response
            | _ => retrieved_response (List.length relevant_docs)
            end in
          ret (tool_result
                 (match relevant_docs with
                  | [] => ""
                  | _ => _format_rag_context relevant_docs
                  end)
                 relevant_docs tool_response tool_call_id)
        end
      end.

  End Node.

End Rag.

(* ================================================================= *)
(** ** Chat agent: [graph/chat_agent_node.py] *)

Module Chat.

Definition nl : string := Rag.nl.

  (** [_build_chat_prompt(messages, rag_context, base_system_prompt)] *)
Definition _build_chat_prompt (msgs : list message) (rag_context : string)
             (base_system_prompt : string) : list message :=
    let system_content :=
      if String.eqb rag_context "" then base_system_prompt
      else base_system_prompt ++ nl ++ nl ++ rag_context ++ nl ++ nl
           ++ "IMPORTANT: Use the retrieved context above to answer the user's question accurately."
           ++ nl ++ "Reference page numbers when citing information from the manual." in
    SystemMessage system_content ::
    match msgs with
    | SystemMessage _ :: rest => rest
    | _ => msgs
    end.

  (** [chat_agent_node(state)] built by
      [create_chat_agent_node(llm, base_system_prompt)]; [llm] returns the
      content, tool calls and metadata of its [AIMessage]. *)
Definition chat_agent_node
             (llm : list message -> string * list tool_call * list (string * Z))
             (base_system_prompt : string) (st : state) : update :=
    let prompt_messages :=
      _build_chat_prompt (messages st) (rag_context st) base_system_prompt in
    let '(c, tcs, md) := llm prompt_messages in
    mk_update [AIMessage c tcs md] None None None None None None None.

End Chat.

(* ================================================================= *)
(** ** Usage bands, as the specification states them *)

Module Bands.

Inductive band : Type := NoBand | Informational | Warning | Critical.

  (** <60% none, 60-79% informational, 80-94% warning, >=95% critical. *)
Definition in_band (b : band) (q : Q) : Prop :=
    match b with
    | NoBand => (q < 60)%Q
    | Informational => (60 <= q /\ q < 80)%Q
    | Warning => (80 <= q /\ q < 95)%Q
    | Critical => (95 <= q)%Q
    end.

  (** The advisory turn injected for a band, with the code's wording. *)
Definition advisory (format_usage : Q -> Z -> string) (b : band)
             (usage : Q) (remaining : Z) : list message :=
    let detail := format_usage usage remaining in
    match b with
    | NoBand => []
    | Informational =>
      [SystemMessage ("ℹ️ Context usage is moderate (" ++ detail ++ ").")]
    | Warning =>
      [SystemMessage ("⚠️ WARNING: Context usage is high (" ++ detail ++ ").")]
    | Critical =>
      [SystemMessage ("⚠️ CRITICAL: Context nearly full (" ++ detail
                      ++ "). Consider starting a new conversation.")]
    end.

End Bands.

(* ================================================================= *)
(** ** Console progress bar: [_get_progress_bar] in
       [graph/token_tracking_node.py] *)

Module TokenDisplay.

(** [s * n] for a string [s] and a count [n] (a negative count gives the
    empty string, which [Z.to_nat] provides at the call sites). *)
Fixpoint repeat_str (s : string) (n : nat) : string :=
  match n with
  | O => ""
  | S n' => s ++ repeat_str s n'
  end.

(** The full-block character U+2588, in UTF-8. *)
Definition FULL_BLOCK : string := "█".

(** A Python [float]: an IEEE 754 binary64 number; [*], [/] and [<] are
    the rounded binary64 operations. *)
Definition float : Type := PrimFloat.float.

Definition fmul (x y : float) : float := PrimFloat.mul x y.
Definition fdiv (x y : float) : float := PrimFloat.div x y.
Definition fltb (x y : float) : bool := PrimFloat.ltb x y.

(** [float(n)] for an int [n]: rounded to nearest, ties to even (an int
    too large for binary64 raises [OverflowError] in Python; it rounds to
    infinity here and the callers never use one). *)
Definition float_of_int (n : Z) : float :=
  FloatOps.SF2Prim (SpecFloat.binary_normalize FloatOps.prec FloatOps.emax n 0 false).

(** [int(x)] for a float [x]: truncation toward zero; [None] is the
    [OverflowError] / [ValueError] raised on an infinity or a NaN. *)
Definition py_int (x : float) : option Z :=
  match FloatOps.Prim2SF x with
  | SpecFloat.S754_zero _ => Some 0%Z
  | SpecFloat.S754_finite s m e =>
    Some (SpecFloat.cond_Zopp s
            (if Z.leb 0 e then Z.shiftl (Zpos m) e else Z.shiftr (Zpos m) (- e)))
  | _ => None
  end.

(** [usage_percentage = (new_total_tokens / context_limit) * 100] in
    [token_tracking_node]: the int division [/] is Python's true division,
    the correctly rounded quotient, which is the binary64 quotient of the
    two ints for ints below 2^53; [None] is the [ZeroDivisionError]. *)
Definition usage_percentage (new_total_tokens context_limit : Z) : option float :=
  if Z.eqb context_limit 0 then None
  else Some (fmul (fdiv (float_of_int new_total_tokens) (float_of_int context_limit))
                  (float_of_int 100)).

Section Bar.

  (** [f"{percentage:.1f}"] *)
Variable format_pct : float -> string.

  (** [_get_progress_bar(percentage, width)]; [None] when [int(...)]
      raises. *)
Definition _get_progress_bar (percentage : float) (width : Z) : option string :=
    match py_int (fmul (fdiv percentage (float_of_int 100)) (float_of_int width)) with
    | None => None
    | Some filled =>
      let empty := (width - filled)%Z in
      let label :=
        if fltb percentage (float_of_int 50) then "LOW"
        else if fltb percentage (float_of_int 80) then "MEDIUM"
        else "HIGH" in
      Some ("[" ++ repeat_str FULL_BLOCK (Z.to_nat filled)
            ++ repeat_str "-" (Z.to_nat empty) ++ "] "
            ++ format_pct percentage ++ "% (" ++ label ++ ")")
    end.

End Bar.

End TokenDisplay.

(* ================================================================= *)
(** ** CLI rendering of an approval request:
       [format_approval_prompt_for_cli] in [utils/approval_node.py] *)

Module ApprovalCLI.

Definition nl : string := Rag.nl.

Definition rule : string := TokenDisplay.repeat_str "=" 70.

(** The argument lines of one tool; [str(value)] of a string argument is
    the string itself. *)
Fixpoint arg_lines (args : list (string * string)) : list string :=
  match args with
  | [] => []
  | (key, value) :: rest =>
    let value_str :=
      if Nat.ltb 100 (length value) then substring 0 100 value ++ "..."
      else value in
    ("      " ++ key ++ ": " ++ value_str) :: arg_lines rest
  end.

(** The lines appended by [for i, tool in enumerate(tools, 1)]. *)
Fixpoint tool_lines (i : nat) (tools : list tool_call) : list string :=
  match tools with
  | [] => []
  | tool :: rest =>
    (nl ++ "[" ++ Py.str_of_nat i ++ "] Tool: " ++ tc_name tool)
    :: "    Arguments:"
    :: app (arg_lines (tc_args tool)) (tool_lines (S i) rest)
  end.

(** The list [lines] built for a request. *)
Definition cli_lines (tools : list tool_call) : list string :=
  app [(nl ++ rule)%string; "TOOL APPROVAL REQUEST"; rule]
      (app (tool_lines 1 tools)
           [(nl ++ rule)%string;
            ("Approve execution of these " ++ Py.str_of_nat (List.length tools)
             ++ " tool(s)? (y/n): ")%string]).

Section CLI.

  (** [str(interrupt_data)] *)
Variable py_str : Approval.approval_request -> string.

  (** [format_approval_prompt_for_cli(interrupt_data)] on the payload of
      the approval gate (the only payload its caller passes). *)
Definition format_approval_prompt_for_cli (interrupt_data : Approval.approval_request)
    : string :=
    if negb (String.eqb (Approval.req_type interrupt_data) "tool_approval_request")
    then py_str interrupt_data
    else Rag.join nl (cli_lines (Approval.req_tools interrupt_data)).

End CLI.

End ApprovalCLI.

(* ================================================================= *)
(** ** Manual search tool: [tools/manual_search.py] *)

Module ManualSearch.

Definition nl : string := Rag.nl.

(** The parts appended by [for i, doc in enumerate(results, 1)]. *)
Fixpoint section_parts (i : nat) (results : list document) : list string :=
  match results with
  | [] => []
  | doc :: rest =>
    (nl ++ "[Section " ++ Py.str_of_nat i ++ " - Page "
     ++ match page doc with Some p => Py.str_of_Z p | None => "unknown" end
     ++ "]")
    :: Py.strip (page_content doc)
    :: TokenDisplay.repeat_str "-" 50
    :: section_parts (S i) rest
  end.

(** [search_f150_manual(question)]; [_vector_store] is the module global
    set by [set_vector_store] ([None] until then), given by its
    [similarity_search]. *)
Definition search_f150_manual
           (_vector_store : option (string -> nat -> list document))
           (question : string) : string :=
  match _vector_store with
  | None => "Error: Manual not loaded. Please restart the application."
  | Some vs =>
    match vs question 5 with
    | [] => "No relevant information found in the manual for this question."
    | results =>
      Rag.join nl (("Here are the relevant sections from the F-150 Owner's Manual:" ++ nl)
                   :: section_parts 1 results)
    end
  end.

End ManualSearch.

(* ================================================================= *)
(** ** Tool execution in the compiled graph: [ToolNode(tools)] of
       [create_f150_graph], with [tools = [search_f150_manual, search_web]]
       when a vector store is given (which [set_vector_store] installs) *)

Module ToolExec.

Section ToolNode.

  (** The vector store passed to [create_f150_graph], by its
      [similarity_search]. *)
Variable vector_store : string -> nat -> list document.
  (** [search_web(query)] *)
Variable search_web : string -> string.
  (** The text of the error [ToolMessage] that [ToolNode] returns for a call
      of an unknown tool or with invalid arguments. *)
Variable tool_error : tool_call -> string.

  (** [tool_call['args'][k]] *)
Definition arg (k : string) (tc : tool_call) : option string :=
    option_map snd (find (fun kv => String.eqb (fst kv) k) (tc_args tc)).

  (** The content of the [ToolMessage] answering one call. *)
Definition run_tool (tc : tool_call) : string :=
    if String.eqb (tc_name tc) "search_f150_manual" then
      match arg "question" tc with
      | Some q => ManualSearch.search_f150_manual (Some vector_store) q
      | None => tool_error tc
      end
    else if String.eqb (tc_name tc) "search_web" then
      match arg "query" tc with
      | Some q => search_web q
      | None => tool_error tc
      end
    else tool_error tc.

  (** [ToolNode(tools)] on the state: one [ToolMessage] per call of the last
      AI message, in the order of the calls.  On any other last message
      [ToolNode] raises; the graph never runs it there ([should_continue]
      routes to [tools] only after an AI message with calls), and the
      empty update stands for that case. *)
Definition tool_node (st : state) : update :=
    match last (map Some (messages st)) None with
    | Some (AIMessage _ tcs _) =>
      mk_update (map (fun tc => ToolMessage (run_tool tc) (tc_id tc)) tcs)
                None None None None None None None
    | _ => empty_update
    end.

End ToolNode.

End ToolExec.

(* ================================================================= *)
(** ** Proofs *)

Lemma apply_empty_update (st : state) : apply_update empty_update st = st.
Proof.
  destruct st; unfold apply_update; simpl; rewrite app_nil_r; reflexivity.
Qed.

Lemma Qle_bool_false (a b : Q) : Qle_bool a b = false -> (b < a)%Q.
Proof.
  intros H. apply Qnot_le_lt. intros Hle.
  apply Qle_bool_iff in Hle. congruence.
Qed.

Section TrackerProofs.

  Import TokenTracking.

  (** Shape of a tracker run that did update the counters. *)
Lemma token_tracking_node_cases fmt limit thr st u out :
    token_tracking_node fmt limit thr st = Some (u, out) ->
    (u = empty_update /\ (out = [] \/ out = [TrackingUnavailable]))
    \/ exists md,
        last_ai_metadata (messages st) = Some md /\
        let p := meta_get "prompt_eval_count" md in
        let c := meta_get "eval_count" md in
        let np := (total_prompt_tokens st + p)%Z in
        let nc := (total_completion_tokens st + c)%Z in
        let usage := ((inject_Z (np + nc) / inject_Z limit) * 100)%Q in
        let rem := (limit - (np + nc))%Z in
        limit <> 0%Z /\
        u = mk_update (match _get_warning_message fmt usage rem with
                       | Some w => [SystemMessage w] | None => [] end)
                      None None (Some (np + nc)%Z) (Some np) (Some nc)
                      (Some limit) None /\
        out = [UsageReport p c (p + c) (np + nc) limit usage rem].
  Proof.
    unfold token_tracking_node.
    destruct (last_ai_metadata (messages st)) as [md|] eqn:Hmd.
    - destruct (Z.eqb (meta_get "prompt_eval_count" md) 0
                && Z.eqb (meta_get "eval_count" md) 0) eqn:Hz.
      + intros H; inversion H; subst; auto.
      + destruct (Z.eqb limit 0) eqn:Hl; [discriminate|].
        intros H; inversion H; subst. right. exists md.
        split; [reflexivity|]. apply Z.eqb_neq in Hl. auto.
    - intros H; inversion H; subst; auto.
  Qed.

End TrackerProofs.

Lemma Qle_bool_lt_false (a q : Q) : (q < a)%Q -> Qle_bool a q = false.
Proof.
  intros H. destruct (Qle_bool a q) eqn:E; [|reflexivity].
  apply Qle_bool_iff in E. exfalso. apply (Qlt_not_le q a H E).
Qed.

Lemma Qle_bool_le_true (a q : Q) : (a <= q)%Q -> Qle_bool a q = true.
Proof. apply Qle_bool_iff. Qed.

(** The code's nested thresholds of [_get_warning_message] agree with the
    band intervals. *)
Lemma warning_message_band fmt b q rem :
  Bands.in_band b q ->
  match TokenTracking._get_warning_message fmt q rem with
  | Some w => [SystemMessage w]
  | None => []
  end = Bands.advisory fmt b q rem.
Proof.
  unfold TokenTracking._get_warning_message, Bands.advisory.
  destruct b; simpl; intros H.
  - rewrite (Qle_bool_lt_false 95 q), (Qle_bool_lt_false 80 q),
            (Qle_bool_lt_false 60 q); try reflexivity;
      eapply Qlt_le_trans; try eassumption; discriminate.
  - destruct H as [H1 H2].
    rewrite (Qle_bool_lt_false 95 q), (Qle_bool_lt_false 80 q),
            (Qle_bool_le_true 60 q); try reflexivity; try assumption.
    eapply Qlt_le_trans; try eassumption; discriminate.
  - destruct H as [H1 H2].
    rewrite (Qle_bool_lt_false 95 q), (Qle_bool_le_true 80 q);
      try reflexivity; assumption.
  - rewrite (Qle_bool_le_true 95 q); [reflexivity | assumption].
Qed.

Lemma warning_message_at_most_one fmt q rem :
  List.length (match TokenTracking._get_warning_message fmt q rem with
          | Some w => [SystemMessage w]
          | None => []
          end) <= 1.
Proof.
  destruct (TokenTracking._get_warning_message fmt q rem); simpl; lia.
Qed.

(** C4: the Context Tracker's update carries at most one advisory turn; when
    it reports a usage percentage lying in a band (<60% none, 60-79%
    informational, 80-94% warning, >=95% critical) the turns it appends to
    [messages] are exactly that band's advisory: none below 60%, one
    informational, one warning or one critical advisory otherwise (so
    crossing 95% gives the critical advisory alone); without a usage report
    it appends nothing. *)
Theorem context_tracker_bands :
  forall fmt limit thr st u out,
  TokenTracking.token_tracking_node fmt limit thr st = Some (u, out) ->
  List.length (u_messages u) <= 1 /\
  (forall p c i cum lim usage rem b,
     In (TokenTracking.UsageReport p c i cum lim usage rem) out ->
     Bands.in_band b usage ->
     u_messages u = Bands.advisory fmt b usage rem) /\
  ((forall p c i cum lim usage rem,
      ~ In (TokenTracking.UsageReport p c i cum lim usage rem) out) ->
   u_messages u = []).
Proof.
  intros fmt limit thr st u out H.
  destruct (token_tracking_node_cases _ _ _ _ _ _ H)
    as [[-> Hout] | [md [Hmd [Hl [-> ->]]]]].
  - split; [simpl; lia|]. split; [|reflexivity].
    intros * Hin. destruct Hout as [-> | ->]; simpl in Hin;
      [contradiction | destruct Hin as [E|[]]; discriminate].
  - simpl. split; [apply warning_message_at_most_one|]. split.
    + intros * [E|[]] Hb. inversion E; subst.
      apply warning_message_band. assumption.
    + intros Hno. exfalso. eapply Hno. left. reflexivity.
Qed.

Lemma context_tracker_bands_witness :
  TokenTracking.token_tracking_node (fun _ _ => "85.0%, 150 tokens remaining")
    1000 80 (initial_state [AIMessage "" [] [("prompt_eval_count", 700%Z);
                                             ("eval_count", 150%Z)]])
  = Some (mk_update
            [SystemMessage "⚠️ WARNING: Context usage is high (85.0%, 150 tokens remaining)."]
            None None (Some 850%Z) (Some 700%Z) (Some 150%Z) (Some 1000%Z) None,
          [TokenTracking.UsageReport 700 150 850 850 1000 ((inject_Z 850 / inject_Z 1000) * 100)%Q 150])
  /\ List.length [SystemMessage "⚠️ WARNING: Context usage is high (85.0%, 150 tokens remaining)."] <= 1.
Proof.
  split; [reflexivity|].
  eapply (proj1 (context_tracker_bands (fun _ _ => "85.0%, 150 tokens remaining")
    1000 80 (initial_state [AIMessage "" [] [("prompt_eval_count", 700%Z);
                                             ("eval_count", 150%Z)]]) _ _ eq_refl)).
Defined.

(** The per-thread counter relation [total = prompt + completion]; it holds
    in the initial state (all zero). *)
Definition counters_consistent (st : state) : Prop :=
  total_tokens st = (total_prompt_tokens st + total_completion_tokens st)%Z.

(** Ollama reports non-negative counts for the last AI turn. *)
Definition counts_nonneg (st : state) : Prop :=
  forall md, TokenTracking.last_ai_metadata (messages st) = Some md ->
  (0 <= TokenTracking.meta_get "prompt_eval_count" md)%Z /\
  (0 <= TokenTracking.meta_get "eval_count" md)%Z.

(** C7: a Context Tracker update either leaves the three counters unchanged
    or adds the turn's non-negative prompt and completion counts to them, so
    they never decrease; afterwards [total_tokens] equals
    [total_prompt_tokens + total_completion_tokens], and the reported usage
    percentage is [total_tokens / context_limit * 100] of the new state. *)
Theorem token_counters_monotone :
  forall fmt limit thr st u out,
  counters_consistent st ->
  counts_nonneg st ->
  TokenTracking.token_tracking_node fmt limit thr st = Some (u, out) ->
  let st' := apply_update u st in
  ((total_prompt_tokens st <= total_prompt_tokens st')%Z /\
   (total_completion_tokens st <= total_completion_tokens st')%Z /\
   (total_tokens st <= total_tokens st')%Z) /\
  counters_consistent st' /\
  ((total_prompt_tokens st' = total_prompt_tokens st /\
    total_completion_tokens st' = total_completion_tokens st /\
    total_tokens st' = total_tokens st) \/
   (exists p c, (0 <= p)%Z /\ (0 <= c)%Z /\
      total_prompt_tokens st' = (total_prompt_tokens st + p)%Z /\
      total_completion_tokens st' = (total_completion_tokens st + c)%Z)) /\
  (forall p c i cum lim usage rem,
     In (TokenTracking.UsageReport p c i cum lim usage rem) out ->
     cum = total_tokens st' /\ lim = context_limit st' /\
     usage = ((inject_Z (total_tokens st') / inject_Z (context_limit st')) * 100)%Q).
Proof.
  intros fmt limit thr st u out Hc Hn H st'. subst st'.
  destruct (token_tracking_node_cases _ _ _ _ _ _ H)
    as [[-> Hout] | [md [Hmd [Hl [-> ->]]]]].
  - rewrite apply_empty_update.
    split; [lia|]. split; [assumption|]. split; [left; auto|].
    intros * Hin. destruct Hout as [-> | ->]; simpl in Hin;
      [contradiction | destruct Hin as [E|[]]; discriminate].
  - destruct (Hn md Hmd) as [Hp Hq].
    unfold counters_consistent in *. simpl.
    split; [lia|]. split; [reflexivity|]. split.
    + right. eexists; eexists; repeat split; eassumption.
    + intros * [E|[]]. inversion E; subst. auto.
Qed.

Lemma token_counters_monotone_witness :
  counters_consistent (initial_state [AIMessage "" [] [("prompt_eval_count", 700%Z); ("eval_count", 150%Z)]]) /\
  counts_nonneg (initial_state [AIMessage "" [] [("prompt_eval_count", 700%Z); ("eval_count", 150%Z)]]) /\
  (0 <= 850)%Z.
Proof.
  assert (Hc : counters_consistent (initial_state [AIMessage "" [] [("prompt_eval_count", 700%Z); ("eval_count", 150%Z)]]))
    by reflexivity.
  assert (Hn : counts_nonneg (initial_state [AIMessage "" [] [("prompt_eval_count", 700%Z); ("eval_count", 150%Z)]])).
  { intros md E. simpl in E. inversion E. simpl. split; discriminate. }
  split; [exact Hc|]. split; [exact Hn|].
  destruct (token_counters_monotone (fun _ _ => "") 1000 80 _ _ _ Hc Hn eq_refl)
    as [[_ [_ H]] _].
  simpl in H. exact H.
Defined.

(** C10: if the last AI turn's metadata reports zero prompt and zero
    completion tokens (an absent key reads as 0), the Context Tracker prints
    only the "tracking unavailable" line and returns an empty update, which
    leaves the whole state (counters and messages) unchanged. *)
Theorem token_tracking_zero_counts_unavailable :
  forall fmt limit thr st md,
  TokenTracking.last_ai_metadata (messages st) = Some md ->
  TokenTracking.meta_get "prompt_eval_count" md = 0%Z ->
  TokenTracking.meta_get "eval_count" md = 0%Z ->
  TokenTracking.token_tracking_node fmt limit thr st
    = Some (empty_update, [TokenTracking.TrackingUnavailable]) /\
  apply_update empty_update st = st.
Proof.
  intros fmt limit thr st md Hmd Hp Hc.
  split; [|apply apply_empty_update].
  unfold TokenTracking.token_tracking_node. rewrite Hmd, Hp, Hc. reflexivity.
Qed.

Lemma token_tracking_zero_counts_unavailable_witness :
  TokenTracking.token_tracking_node (fun _ _ => "") 128000 80
    (initial_state [HumanMessage "hi"; AIMessage "hello" [] []])
  = Some (empty_update, [TokenTracking.TrackingUnavailable]).
Proof.
  exact (proj1 (token_tracking_zero_counts_unavailable (fun _ _ => "") 128000 80
    (initial_state [HumanMessage "hi"; AIMessage "hello" [] []]) []
    eq_refl eq_refl eq_refl)).
Defined.

(* ----------------------------------------------------------------- *)
(** Router and approval gate *)

Lemma last_some_app {A} (rest : list A) (x : A) :
  last (map Some (rest ++ [x])%list) None = Some x.
Proof. rewrite map_app. simpl. apply last_last. Qed.

Definition APPROVAL_GATE : string := "approval_gate".

Definition search_call (q id : string) : tool_call :=
  mk_tool_call "search_f150_manual" [("question", q)] id.

Definition web_call (q id : string) : tool_call :=
  mk_tool_call "search_web" [("query", q)] id.

(** C2 (counterexample): after the agent node, a last turn with a pending
    tool call is routed to the [tools] node, not to an approval gate; the
    compiled graph has no approval node. *)
Lemma router_after_agent_counterexample :
  let st := initial_state [HumanMessage "What is fuse 33 for?";
                           AIMessage "" [search_call "fuse 33" "call_1"] []] in
  Graph.next_node Graph.AGENT st = Some Graph.TOOLS /\
  Graph.next_node Graph.AGENT st <> Some APPROVAL_GATE.
Proof. split; [reflexivity | discriminate]. Qed.

(** C2 (amended): after the agent node the router sends control to the
    [tools] node exactly when the last message carries a non-empty
    [tool_calls] list and to [token_tracker] otherwise; the decision depends
    on the message list alone, and it is always defined after [call_model],
    which appends an AI message. *)
Theorem router_after_agent :
  (forall st1 st2, messages st1 = messages st2 ->
     Graph.next_node Graph.AGENT st1 = Graph.next_node Graph.AGENT st2) /\
  (forall st rest c tcs md,
     messages st = (rest ++ [AIMessage c tcs md])%list ->
     Graph.next_node Graph.AGENT st =
       Some (match tcs with [] => Graph.TOKEN_TRACKER | _ => Graph.TOOLS end)) /\
  (forall llm sys st, exists nxt,
     Graph.next_node Graph.AGENT (apply_update (Graph.call_model llm sys st) st)
       = Some nxt).
Proof.
  split; [|split].
  - intros st1 st2 E. unfold Graph.next_node, Graph.should_continue.
    simpl. rewrite E. reflexivity.
  - intros st rest c tcs md E. unfold Graph.next_node, Graph.should_continue.
    simpl. rewrite E, last_some_app. destruct tcs; reflexivity.
  - intros llm sys st. unfold Graph.call_model.
    destruct (llm _) as [[c tcs] md].
    unfold Graph.next_node, Graph.should_continue, apply_update. simpl.
    rewrite last_some_app. destruct tcs; eexists; reflexivity.
Qed.

Lemma router_after_agent_witness :
  Graph.next_node Graph.AGENT
    (initial_state [HumanMessage "What is fuse 33 for?";
                    AIMessage "" [search_call "fuse 33" "call_1"] []])
  = Some Graph.TOOLS.
Proof.
  exact (proj1 (proj2 router_after_agent)
    (initial_state [HumanMessage "What is fuse 33 for?";
                    AIMessage "" [search_call "fuse 33" "call_1"] []])
    [HumanMessage "What is fuse 33 for?"] "" [search_call "fuse 33" "call_1"] []
    eq_refl).
Defined.

(** A two-call batch awaiting approval. *)
Definition batch_state : state :=
  initial_state [HumanMessage "My engine is making noise";
                 AIMessage "" [search_call "engine noise" "call_1";
                               web_call "F-150 engine noise" "call_2"] []].

(** C3 (counterexample): after a rejection of a batch of two calls, the
    assistant turn carrying both calls is still in [messages]: the calls are
    not cleared from it. *)
Lemma approval_rejection_counterexample :
  exists st',
    Approval.resume true batch_state (Py.VDict [("approved", Py.VBool false)])
      = Some st' /\
    In (AIMessage "" [search_call "engine noise" "call_1";
                      web_call "F-150 engine noise" "call_2"] [])
       (messages st').
Proof.
  eexists. split; [reflexivity|]. simpl. right. left. reflexivity.
Qed.

(** C3 (amended): for a last assistant turn with K >= 1 tool calls, the gate
    suspends with a request listing all K calls; a rejection decision leaves
    that turn in place unchanged and appends one directive assistant turn
    (no tool calls) telling the agent to answer without tools, all other
    state fields untouched; so in a single update the last turn carries no
    pending tool call. *)
Theorem approval_rejection_appends_directive :
  forall st rest c tcs md d,
  tcs <> [] ->
  messages st = (rest ++ [AIMessage c tcs md])%list ->
  Approval.is_rejection d = true ->
  (exists k, Approval.approval_node true st
               = Some (Approval.Suspend (Approval._build_approval_prompt tcs) k)) /\
  exists st',
    Approval.resume true st d = Some st' /\
    messages st' = (rest ++ [AIMessage c tcs md;
                             AIMessage Approval.rejection_content [] []])%list /\
    Graph.should_continue st' = Some Graph.TOKEN_TRACKER /\
    st' = apply_update (mk_update [AIMessage Approval.rejection_content [] []]
                                  None None None None None None None) st.
Proof.
  intros st rest c tcs md d Htcs E Hrej.
  assert (Hg : Approval.approval_node true st
               = Some (Approval.Suspend (Approval._build_approval_prompt tcs)
                                        Approval.on_decision)).
  { unfold Approval.approval_node. simpl. rewrite E, last_some_app. simpl.
    destruct tcs; [congruence | reflexivity]. }
  split; [eexists; exact Hg|].
  unfold Approval.resume. rewrite Hg.
  unfold Approval.on_decision. rewrite Hrej.
  eexists. split; [reflexivity|]. split.
  - simpl. rewrite E, <- app_assoc. reflexivity.
  - split; [|reflexivity].
    unfold Graph.should_continue. simpl.
    rewrite (last_some_app (messages st)). reflexivity.
Qed.

Lemma approval_rejection_appends_directive_witness :
  exists st',
    Approval.resume true batch_state (Py.VBool false) = Some st' /\
    Graph.should_continue st' = Some Graph.TOKEN_TRACKER.
Proof.
  destruct (approval_rejection_appends_directive batch_state
    [HumanMessage "My engine is making noise"] ""
    [search_call "engine noise" "call_1"; web_call "F-150 engine noise" "call_2"]
    [] (Py.VBool false) ltac:(discriminate) eq_refl eq_refl)
    as [_ [st' [H1 [_ [H2 _]]]]].
  exists st'. split; assumption.
Defined.

(** C9 (counterexample): resuming with the malformed decision ["no"] (a
    string) is not refused: it yields exactly the state an approval [True]
    yields, the unchanged state whose last turn still carries its tool
    calls, which the gate's approval branch hands on to tool execution. *)
Lemma approval_malformed_counterexample :
  Approval.resume true batch_state (Py.VStr "no") = Some batch_state /\
  Approval.resume true batch_state (Py.VStr "no")
    = Approval.resume true batch_state (Py.VBool true) /\
  Graph.should_continue batch_state = Some Graph.TOOLS.
Proof. split; [|split]; reflexivity. Qed.

(** C9 (amended): the gate does not validate the decision; every resume
    value other than the boolean [False] or a dict whose ["approved"] entry
    is the boolean [False] (e.g. ["no"], [0], [None], [{}],
    [{"approved": "false"}]) is handled exactly as an approval: the gate
    returns an empty update, so the state is unchanged and the pending tool
    calls stay in place to proceed. *)
Theorem approval_non_rejection_is_approval :
  forall st d,
  Approval.is_rejection d = false ->
  Approval.resume true st d = Approval.resume true st (Py.VBool true) /\
  (forall st', Approval.resume true st d = Some st' -> st' = st).
Proof.
  intros st d Hd. unfold Approval.resume.
  destruct (Approval.approval_node true st) as [[u|r k]|] eqn:Hg;
    split; try reflexivity; try discriminate.
  - assert (Hk : k = Approval.on_decision).
    { unfold Approval.approval_node in Hg. simpl in Hg.
      destruct (last _ None) as [m|]; [|discriminate].
      destruct (tool_calls_of m); inversion Hg; reflexivity. }
    subst k. unfold Approval.on_decision. rewrite Hd. reflexivity.
  - intros st' H. inversion H.
    assert (Hk : k = Approval.on_decision).
    { unfold Approval.approval_node in Hg. simpl in Hg.
      destruct (last _ None) as [m|]; [|discriminate].
      destruct (tool_calls_of m); inversion Hg; reflexivity. }
    subst k. unfold Approval.on_decision. rewrite Hd. apply apply_empty_update.
Qed.

Lemma approval_non_rejection_is_approval_witness :
  Approval.resume true batch_state (Py.VStr "no")
    = Approval.resume true batch_state (Py.VBool true).
Proof.
  exact (proj1 (approval_non_rejection_is_approval batch_state (Py.VStr "no")
                  eq_refl)).
Defined.

(* ----------------------------------------------------------------- *)
(** Pre-filter *)

Section StringFacts.

  Import Py.

Lemma all_chars_forallb p (s : string) :
    Filter.all_chars p s = forallb p (list_ascii_of_string s).
  Proof. induction s; simpl; [reflexivity | rewrite IHs; reflexivity]. Qed.

Lemma list_ascii_append (a b : string) :
    list_ascii_of_string (a ++ b) = (list_ascii_of_string a ++ list_ascii_of_string b)%list.
  Proof. induction a; simpl; [reflexivity | rewrite IHa; reflexivity]. Qed.

Lemma substring_full (s : string) : substring 0 (length s) s = s.
  Proof. induction s; simpl; [reflexivity | rewrite IHs; reflexivity]. Qed.

Lemma prefix_split (a s : string) :
    String.prefix a s = true -> s = (a ++ slice_from (length a) s)%string.
  Proof.
    unfold slice_from. revert s. induction a as [|c a IH]; intros s H.
    - simpl. rewrite Nat.sub_0_r, substring_full. reflexivity.
    - destruct s as [|c' s]; simpl in H; [discriminate|].
      destruct (ascii_dec c c') as [->|]; [|discriminate].
      simpl. f_equal. apply IH. exact H.
  Qed.

Lemma slice_split (n : nat) (s : string) :
    s = (slice_to n s ++ slice_from n s)%string.
  Proof.
    unfold slice_to, slice_from. revert n. induction s as [|c s IH]; intros n.
    - destruct n; reflexivity.
    - destruct n as [|n].
      + simpl. rewrite substring_full. reflexivity.
      + simpl. f_equal. apply IH.
  Qed.

Lemma lstrip_keeps p s c :
    p c = false -> In c (list_ascii_of_string s) ->
    In c (list_ascii_of_string (lstrip_by p s)).
  Proof.
    intros Hp. induction s as [|c' s IH]; simpl; [tauto|].
    intros [->|Hin].
    - rewrite Hp. simpl. left. reflexivity.
    - destruct (p c'); simpl; auto.
  Qed.

Lemma rev_string_in s c :
    In c (list_ascii_of_string (rev_string s)) <-> In c (list_ascii_of_string s).
  Proof.
    unfold rev_string. rewrite list_ascii_of_string_of_list_ascii.
    split; [apply in_rev | apply in_rev].
  Qed.

Lemma strip_keeps p s c :
    p c = false -> In c (list_ascii_of_string s) ->
    In c (list_ascii_of_string (strip_by p s)).
  Proof.
    intros Hp Hin. unfold strip_by, rstrip_by.
    apply rev_string_in, lstrip_keeps, rev_string_in, lstrip_keeps; assumption.
  Qed.

Lemma lower_keeps s c :
    In c (list_ascii_of_string s) ->
    In (lower_char c) (list_ascii_of_string (lower s)).
  Proof.
    induction s as [|c' s IH]; simpl; [tauto|].
    intros [->|Hin]; [left; reflexivity | right; auto].
  Qed.

End StringFacts.

Module FilterFacts.

  Import Filter.

  (** Characters a matched message can contain: lower-case letters,
      whitespace, [!] and [.]. *)
Definition allowed (c : ascii) : bool :=
    let n := nat_of_ascii c in
    (Nat.leb 97 n && Nat.leb n 122) || Py.isspace c
    || Ascii.eqb c "!" || Ascii.eqb c ".".

Lemma all_chars_app p a b :
    all_chars p (a ++ b) = all_chars p a && all_chars p b.
  Proof. induction a; simpl; [reflexivity | rewrite IHa; apply andb_assoc]. Qed.

Lemma all_chars_mono (p q : ascii -> bool) s :
    (forall c, p c = true -> q c = true) ->
    all_chars p s = true -> all_chars q s = true.
  Proof.
    intros Hpq. induction s; simpl; [auto|].
    intros H. apply andb_prop in H as [H1 H2]. rewrite (Hpq _ H1). auto.
  Qed.

Lemma tail_match_allowed s : tail_match s = true -> all_chars allowed s = true.
  Proof.
    apply all_chars_mono. intros c. unfold tail_char, allowed.
    intros H. apply orb_prop in H as [H|H]; [apply orb_prop in H as [H|H]|];
      rewrite H; repeat rewrite orb_true_r; reflexivity.
  Qed.

Lemma alt_then_allowed alts k s :
    forallb (all_chars allowed) alts = true ->
    (forall r, k r = true -> all_chars allowed r = true) ->
    alt_then alts k s = true -> all_chars allowed s = true.
  Proof.
    intros Halts Hk H. apply existsb_exists in H as [a [Hin H]].
    apply andb_prop in H as [Hpre Hrest].
    rewrite (prefix_split a s Hpre), all_chars_app.
    rewrite forallb_forall in Halts. rewrite (Halts a Hin). simpl. auto.
  Qed.

Lemma spaces_then_allowed k s :
    (forall r, k r = true -> all_chars allowed r = true) ->
    spaces_then k s = true -> all_chars allowed s = true.
  Proof.
    intros Hk H. apply existsb_exists in H as [n [_ H]].
    apply andb_prop in H as [Hsp Hrest].
    rewrite (slice_split n s), all_chars_app.
    rewrite (all_chars_mono Py.isspace allowed); [simpl; auto| |exact Hsp].
    intros c Hc. unfold allowed. rewrite Hc. rewrite orb_true_r. reflexivity.
  Qed.

Lemma conversational_allowed text :
    is_conversational_only text = true ->
    all_chars allowed (Py.strip (Py.lower text)) = true.
  Proof.
    unfold is_conversational_only. intros H.
    apply existsb_exists in H as [p [Hin H]].
    simpl in Hin.
    repeat (destruct Hin as [<-|Hin];
            [ unfold re_match in H;
              first [ refine (alt_then_allowed _ _ _ _ tail_match_allowed H);
                      reflexivity
                    | refine (alt_then_allowed _ _ _ _ _ H);
                      [ reflexivity
                      | intros r Hr; refine (spaces_then_allowed _ _ _ Hr);
                        intros r' Hr';
                        refine (alt_then_allowed _ _ _ _ tail_match_allowed Hr');
                        reflexivity ] ]
            | ]).
    contradiction.
  Qed.

Lemma last_user_message_app msgs text :
    last_user_message (msgs ++ [HumanMessage text])%list = Some text.
  Proof. unfold last_user_message. rewrite fold_left_app. reflexivity. Qed.

End FilterFacts.

(** The pre-filter's update on a conversational message. *)
Lemma pre_filter_conversational st text :
  Filter.is_conversational_only text = true ->
  Filter.pre_filter_node "2018 F-150"
    (apply_update (mk_update [HumanMessage text] None None None None None None None) st)
  = mk_update [AIMessage (Py.replace (Py.replace (Filter.get_conversational_response text)
                                                 "F-150" "2018 F-150")
                                     "2018 F-150" "2018 F-150") [] []]
              None None None None None None (Some true).
Proof.
  intros H. unfold Filter.pre_filter_node. simpl.
  rewrite FilterFacts.last_user_message_app, H. reflexivity.
Qed.

(** C5: when the user's message matches the conversational taxonomy, the
    graph run for that turn executes the pre-filter alone: it appends the
    user turn and a canned assistant reply, sets [bypass_agent], and ends,
    so neither the agent node (the only caller of the completion service)
    nor the tools node (the only caller of the retrieval index) runs,
    whatever those collaborators are.  Matching is on the whole message:
    any message containing a question mark, such as a question that merely
    contains a greeting word, never matches. *)
Theorem prefilter_conversational_bypass :
  (forall llm tool_node sys fmt fuel st text,
     Filter.is_conversational_only text = true ->
     exists st' reply,
       Graph.invoke llm tool_node sys fmt (S (S fuel)) st text
         = Graph.Finished st' [Graph.PRE_FILTER] /\
       bypass_agent st' = true /\
       messages st' = (messages st ++ [HumanMessage text; AIMessage reply [] []])%list) /\
  (forall text,
     In "?"%char (list_ascii_of_string text) ->
     Filter.is_conversational_only text = false).
Proof.
  split.
  - intros llm tool_node sys fmt fuel st text H.
    do 2 eexists. unfold Graph.invoke. cbn [Graph.run].
    unfold Graph.run_node. simpl (String.eqb Graph.PRE_FILTER Graph.END).
    simpl (String.eqb Graph.PRE_FILTER Graph.PRE_FILTER). cbv iota beta.
    rewrite (pre_filter_conversational st text H).
    unfold Graph.next_node. simpl (String.eqb Graph.PRE_FILTER Graph.PRE_FILTER).
    cbv iota beta. unfold Graph.should_bypass_agent. simpl (bypass_agent _).
    cbv iota beta.
    destruct fuel;
      (cbn [Graph.run]; simpl (String.eqb Graph.END Graph.END); cbv iota beta;
       split; [reflexivity|]; split; [reflexivity|];
       simpl; rewrite <- app_assoc; reflexivity).
  - intros text Hin.
    destruct (Filter.is_conversational_only text) eqn:E; [|reflexivity].
    exfalso.
    apply FilterFacts.conversational_allowed in E.
    rewrite all_chars_forallb, forallb_forall in E.
    assert (Hl : In (Py.lower_char "?") (list_ascii_of_string (Py.lower text)))
      by (apply lower_keeps; exact Hin).
    apply (strip_keeps Py.isspace) in Hl; [|reflexivity].
    specialize (E _ Hl). discriminate.
Qed.

Lemma prefilter_conversational_bypass_witness :
  (exists st' reply,
     Graph.invoke (fun _ => ("", [], [])) (fun _ => empty_update) "" (fun _ _ => "")
       2 (initial_state []) "Thanks!"
     = Graph.Finished st' [Graph.PRE_FILTER] /\
     bypass_agent st' = true /\
     messages st' = [HumanMessage "Thanks!"; AIMessage reply [] []]) /\
  Filter.is_conversational_only "Hi, what is the oil capacity?" = false.
Proof.
  split.
  - exact (proj1 prefilter_conversational_bypass (fun _ => ("", [], []))
             (fun _ => empty_update) "" (fun _ _ => "") 0 (initial_state [])
             "Thanks!" eq_refl).
  - apply (proj2 prefilter_conversational_bypass).
    simpl. repeat (try (left; reflexivity); right).
Defined.

(* ----------------------------------------------------------------- *)
(** Retrieval node *)

Module RagFacts.

  Import Rag.

  (** A computation of [M] only appends to the log it is given. *)
Definition log_indep {A} (m : M A) : Prop :=
    forall log, m log = (fst (m []), (log ++ snd (m []))%list).

  (** The retrieval-index calls recorded in a log. *)
Definition searches (log : list event) : list (string * nat) :=
    flat_map (fun e => match e with ESearch q k => [(q, k)] | _ => [] end) log.

Lemma searches_app l1 l2 :
    searches (l1 ++ l2)%list = (searches l1 ++ searches l2)%list.
  Proof. unfold searches. apply flat_map_app. Qed.

Lemma ret_indep {A} (a : A) : log_indep (ret a).
  Proof. intros log. unfold ret. simpl. rewrite app_nil_r. reflexivity. Qed.

Lemma bind_indep {A B} (m : M A) (f : A -> M B) :
    log_indep m -> (forall a, log_indep (f a)) -> log_indep (bind m f).
  Proof.
    intros Hm Hf log. unfold bind.
    rewrite (Hm log), (Hm []). simpl.
    rewrite (Hf _ (log ++ _)%list), (Hf _ (snd (m []))).
    simpl. rewrite app_assoc. reflexivity.
  Qed.

Lemma invoke_indep llm p : log_indep (invoke llm p).
  Proof. intros log. reflexivity. Qed.

Lemma assess_loop_indep llm q docs rel : log_indep (assess_loop llm q docs rel).
  Proof.
    revert rel. induction docs as [|d ds IH]; intros rel; simpl.
    - apply ret_indep.
    - apply bind_indep; [apply invoke_indep | intros a; apply IH].
  Qed.

Lemma assess_indep llm docs q : log_indep (_assess_relevance llm docs q).
  Proof.
    unfold _assess_relevance. destruct docs; [apply ret_indep|].
    destruct (Nat.leb _ 5); [apply ret_indep|].
    apply bind_indep; [apply assess_loop_indep | intros; apply ret_indep].
  Qed.

Lemma reformulate_indep llm q : log_indep (_reformulate_query llm q).
  Proof.
    unfold _reformulate_query. apply bind_indep; [apply invoke_indep|].
    intros [c|]; apply ret_indep.
  Qed.

Lemma assess_loop_no_search llm q docs rel log :
    searches (snd (assess_loop llm q docs rel log)) = searches log.
  Proof.
    revert rel log. induction docs as [|d ds IH]; intros rel log; simpl.
    - reflexivity.
    - unfold bind. simpl. rewrite IH, searches_app. simpl.
      rewrite app_nil_r. reflexivity.
  Qed.

Lemma assess_no_search llm docs q :
    searches (snd (run (_assess_relevance llm docs q))) = [].
  Proof.
    unfold run, _assess_relevance. destruct docs; [reflexivity|].
    destruct (Nat.leb _ 5); [reflexivity|].
    unfold bind. rewrite (surjective_pairing (assess_loop _ _ _ _ _)).
    simpl. apply assess_loop_no_search.
  Qed.

Lemma reformulate_no_search llm q :
    searches (snd (run (_reformulate_query llm q))) = [].
  Proof.
    unfold run, _reformulate_query, bind, invoke. simpl.
    destruct (llm _); reflexivity.
  Qed.

  (** The run of the node once a query is found and the store is loaded. *)
Lemma rag_node_run llm vs st q id :
    _extract_rag_tool_call (messages st) = Some (q, id) ->
    String.eqb q "" = false ->
    let r := fst (run (_reformulate_query llm q)) in
    let l1 := snd (run (_reformulate_query llm q)) in
    let rel1 := fst (run (_assess_relevance llm (vs r 5) q)) in
    let l2 := snd (run (_assess_relevance llm (vs r 5) q)) in
    let fb := Nat.ltb (List.length rel1) 2 && negb (String.eqb r q) in
    let rel := if fb then fst (run (_assess_relevance llm (vs q 8) q)) else rel1 in
    let l3 := if fb then ESearch q 8 :: snd (run (_assess_relevance llm (vs q 8) q))
              else [] in
    run (agentic_rag_node llm (Some vs) st)
    = (tool_result (match rel with [] => "" | _ => _format_rag_context rel end)
                   rel
                   (match rel with
                    | [] => no_relevant_response
                    | _ => retrieved_response (List.length rel)
                    end) id,
       (l1 ++ [ESearch r 5] ++ l2 ++ l3)%list).
  Proof.
    intros Hx Hq. unfold run at 1, agentic_rag_node. rewrite Hx, Hq.
    unfold bind at 1. unfold run.
    destruct (_reformulate_query llm q []) as [r l1] eqn:E1. simpl fst; simpl snd.
    unfold bind at 1. unfold similarity_search at 1.
    unfold bind at 1. rewrite (assess_indep llm (vs r 5) q).
    destruct (_assess_relevance llm (vs r 5) q []) as [rel1 l2] eqn:E2.
    simpl fst; simpl snd.
    destruct (Nat.ltb (List.length rel1) 2 && negb (String.eqb r q)) eqn:Efb.
    - unfold bind at 1 2. unfold similarity_search.
      rewrite (assess_indep llm (vs q 8) q).
      destruct (_assess_relevance llm (vs q 8) q []) as [rel2 l4] eqn:E4.
      simpl. unfold ret. repeat rewrite <- app_assoc. reflexivity.
    - unfold bind, ret. simpl. repeat rewrite <- app_assoc. simpl.
      rewrite app_nil_r. reflexivity.
  Qed.

End RagFacts.

(** C6: in the retrieval node, once a query is found and the store is
    loaded, the retrieval index is searched with the reformulated query and
    k = 5, and then a second time, with the original query and k = 8,
    exactly when fewer than 2 documents survived relevance filtering and
    the reformulation differs from the original query; there is never a
    third search, and the fallback results go through relevance filtering
    again before being returned. *)
Theorem retrieval_fallback_once :
  forall llm vs st q id,
  Rag._extract_rag_tool_call (messages st) = Some (q, id) ->
  q <> "" ->
  let r := fst (Rag.run (Rag._reformulate_query llm q)) in
  let rel1 := fst (Rag.run (Rag._assess_relevance llm (vs r 5) q)) in
  let fb := Nat.ltb (List.length rel1) 2 && negb (String.eqb r q) in
  RagFacts.searches (snd (Rag.run (Rag.agentic_rag_node llm (Some vs) st)))
    = ((r, 5) :: if fb then [(q, 8)] else [])%list /\
  u_retrieved_documents (fst (Rag.run (Rag.agentic_rag_node llm (Some vs) st)))
    = Some (if fb then fst (Rag.run (Rag._assess_relevance llm (vs q 8) q))
            else rel1).
Proof.
  intros llm vs st q id Hx Hq r rel1 fb.
  assert (Hq' : String.eqb q "" = false) by (apply String.eqb_neq; exact Hq).
  rewrite (RagFacts.rag_node_run llm vs st q id Hx Hq'). cbn [fst snd].
  fold r rel1 fb.
  split.
  - rewrite !RagFacts.searches_app, RagFacts.reformulate_no_search.
    fold r. rewrite RagFacts.assess_no_search. simpl.
    destruct fb; simpl; [|reflexivity].
    rewrite RagFacts.assess_no_search. reflexivity.
  - reflexivity.
Qed.

(** A concrete run: the reformulated query finds a single chunk. *)
Definition fuse_llm (p : Rag.prompt) : option string :=
  match p with
  | Rag.ReformulationPrompt _ => Some "fuse 33 purpose amperage"
  | Rag.AssessmentPrompt _ _ => Some "YES"
  end.

Definition fuse_store (q : string) (k : nat) : list document :=
  if String.eqb q "fuse 33 purpose amperage"
  then [mk_document "Fuse 33: 15A" (Some 240%Z)]
  else [mk_document "Fuse 33: 15A" (Some 240%Z);
        mk_document "Fuse panel location" (Some 238%Z)].

Definition fuse_state : state :=
  initial_state [HumanMessage "What is fuse 33 for?";
                 AIMessage "" [search_call "What is fuse 33 for?" "call_1"] []].

Lemma retrieval_fallback_once_witness :
  RagFacts.searches (snd (Rag.run (Rag.agentic_rag_node fuse_llm (Some fuse_store) fuse_state)))
    = [("fuse 33 purpose amperage", 5); ("What is fuse 33 for?", 8)].
Proof.
  exact (proj1 (retrieval_fallback_once fuse_llm fuse_store fuse_state
                  "What is fuse 33 for?" "call_1" eq_refl ltac:(discriminate))).
Defined.

(** An oracle that answers "YES" wherever the given one raises. *)
Definition failures_as_yes (llm : Rag.prompt -> option string) (p : Rag.prompt)
  : option string :=
  match llm p with None => Some "YES" | r => r end.

Lemma assess_loop_failures_as_yes llm q docs rel log :
  Rag.assess_loop llm q docs rel log
  = Rag.assess_loop (failures_as_yes llm) q docs rel log.
Proof.
  revert rel log. induction docs as [|d ds IH]; intros rel log; [reflexivity|].
  simpl. unfold Rag.bind, Rag.invoke, failures_as_yes.
  destruct (llm _); apply IH.
Qed.

Lemma assess_loop_all_fail q docs rel log :
  fst (Rag.assess_loop (fun _ => None) q docs rel log) = (rel ++ docs)%list.
Proof.
  revert rel log. induction docs as [|d ds IH]; intros rel log.
  - simpl. rewrite app_nil_r. reflexivity.
  - simpl. unfold Rag.bind, Rag.invoke. rewrite IH, <- app_assoc. reflexivity.
Qed.

Lemma assess_all_fail docs q :
  fst (Rag.run (Rag._assess_relevance (fun _ => None) docs q)) = firstn 5 docs.
Proof.
  unfold Rag.run, Rag._assess_relevance. destruct docs as [|d ds]; [reflexivity|].
  destruct (Nat.leb (List.length (d :: ds)) 5) eqn:E.
  - unfold Rag.ret. cbn [fst]. symmetry. apply firstn_all2.
    apply Nat.leb_le. exact E.
  - unfold Rag.bind, Rag.ret.
    rewrite (surjective_pairing (Rag.assess_loop _ _ _ _ _)).
    cbn [fst]. rewrite assess_loop_all_fail, app_nil_l.
    rewrite firstn_firstn. reflexivity.
Qed.

Lemma reformulate_fail llm q :
  (llm (Rag.ReformulationPrompt q) = None \/
   exists c, llm (Rag.ReformulationPrompt q) = Some c /\ Py.strip c = "") ->
  fst (Rag.run (Rag._reformulate_query llm q)) = q.
Proof.
  unfold Rag.run, Rag._reformulate_query, Rag.bind, Rag.invoke.
  intros [H | [c [H Hc]]]; rewrite H; [reflexivity|].
  simpl. rewrite Hc. reflexivity.
Qed.

(** C8: failures of the reformulation and relevance calls are recovered
    inside the node: a raising (or blank) reformulation gives back the
    original query; a raising relevance judgment is handled exactly as a
    "YES" judgment (the chunk is kept); and with a language model whose
    every call raises, the node still completes, searching once with the
    original query and returning the first five chunks found (or the
    "no relevant information" result). *)
Theorem retrieval_failures_recovered :
  (forall llm q,
     (llm (Rag.ReformulationPrompt q) = None \/
      exists c, llm (Rag.ReformulationPrompt q) = Some c /\ Py.strip c = "") ->
     fst (Rag.run (Rag._reformulate_query llm q)) = q) /\
  (forall llm docs q log,
     Rag._assess_relevance llm docs q log
     = Rag._assess_relevance (failures_as_yes llm) docs q log) /\
  (forall vs st q id,
     Rag._extract_rag_tool_call (messages st) = Some (q, id) ->
     q <> "" ->
     let '(u, log) := Rag.run (Rag.agentic_rag_node (fun _ => None) (Some vs) st) in
     RagFacts.searches log = [(q, 5)] /\
     u_retrieved_documents u = Some (firstn 5 (vs q 5)) /\
     u_messages u = [ToolMessage (match firstn 5 (vs q 5) with
                                  | [] => Rag.no_relevant_response
                                  | _ => Rag.retrieved_response
                                           (List.length (firstn 5 (vs q 5)))
                                  end) id]).
Proof.
  split; [apply reformulate_fail|]. split.
  - intros llm docs q log. unfold Rag._assess_relevance.
    destruct docs; [reflexivity|]. destruct (Nat.leb _ 5); [reflexivity|].
    unfold Rag.bind. rewrite assess_loop_failures_as_yes. reflexivity.
  - intros vs st q id Hx Hq.
    assert (Hq' : String.eqb q "" = false) by (apply String.eqb_neq; exact Hq).
    rewrite (RagFacts.rag_node_run (fun _ => None) vs st q id Hx Hq').
    rewrite (reformulate_fail (fun _ => None) q (or_introl eq_refl)).
    rewrite String.eqb_refl, andb_false_r. cbn [fst snd].
    rewrite assess_all_fail. split; [|split; reflexivity].
    rewrite !RagFacts.searches_app, RagFacts.reformulate_no_search.
    rewrite RagFacts.assess_no_search. reflexivity.
Qed.

Lemma retrieval_failures_recovered_witness :
  fst (Rag.run (Rag._reformulate_query (fun _ => None) "What is fuse 33 for?"))
    = "What is fuse 33 for?" /\
  RagFacts.searches (snd (Rag.run (Rag.agentic_rag_node (fun _ => None)
                                     (Some fuse_store) fuse_state)))
    = [("What is fuse 33 for?", 5)].
Proof.
  split.
  - exact (proj1 retrieval_failures_recovered (fun _ => None) "What is fuse 33 for?"
             (or_introl eq_refl)).
  - pose proof (proj2 (proj2 retrieval_failures_recovered) fuse_store fuse_state
                  "What is fuse 33 for?" "call_1" eq_refl ltac:(discriminate)) as H.
    destruct (Rag.run (Rag.agentic_rag_node (fun _ => None) (Some fuse_store) fuse_state))
      as [u log].
    exact (proj1 H).
Defined.

(* ----------------------------------------------------------------- *)
(** Transient retrieval context *)

Lemma in_existsb_eqb (c : ascii) (l : list ascii) :
  In c l -> existsb (Ascii.eqb c) l = true.
Proof.
  intros H. apply existsb_exists. exists c. split; [exact H|].
  apply Ascii.eqb_refl.
Qed.

Lemma uint_no_eq (d : Decimal.uint) :
  ~ In "="%char (list_ascii_of_string (NilEmpty.string_of_uint d)).
Proof. induction d; simpl; intuition discriminate. Qed.

Lemma str_of_nat_no_eq (n : nat) :
  ~ In "="%char (list_ascii_of_string (Py.str_of_nat n)).
Proof.
  unfold Py.str_of_nat, Py.str_of_Z, NilEmpty.string_of_int.
  destruct (Z.to_int (Z.of_nat n)) as [d|d]; [apply uint_no_eq|].
  simpl. intros [H|H]; [discriminate | exact (uint_no_eq d H)].
Qed.

Lemma retrieved_response_no_eq (n : nat) :
  ~ In "="%char (list_ascii_of_string (Rag.retrieved_response n)).
Proof.
  unfold Rag.retrieved_response.
  rewrite !list_ascii_append. intros H.
  apply in_app_or in H as [H|H]; [apply in_existsb_eqb in H; discriminate|].
  apply in_app_or in H as [H|H]; [exact (str_of_nat_no_eq n H)|].
  apply in_existsb_eqb in H. discriminate.
Qed.

Lemma format_context_head (d : document) (ds : list document) :
  exists rest, Rag._format_rag_context (d :: ds) = String "="%char rest.
Proof. eexists. reflexivity. Qed.

(** Every result of the retrieval node is one tool-result turn. *)
Lemma rag_node_shape llm vs st :
  exists ack id ctx docs,
    fst (Rag.run (Rag.agentic_rag_node llm vs st)) = Rag.tool_result ctx docs ack id /\
    ((ack = "Error: No search query found" /\ ctx = "") \/
     (ack = "Error: Manual not loaded" /\ ctx = "") \/
     (docs = [] /\ ack = Rag.no_relevant_response /\ ctx = "") \/
     (docs <> [] /\ ack = Rag.retrieved_response (List.length docs) /\
      ctx = Rag._format_rag_context docs)).
Proof.
  destruct (Rag._extract_rag_tool_call (messages st)) as [[q id]|] eqn:Hx.
  2:{ unfold Rag.run, Rag.agentic_rag_node. rewrite Hx.
      do 4 eexists. split; [reflexivity|]. left. auto. }
  destruct (String.eqb q "") eqn:Hq.
  { unfold Rag.run, Rag.agentic_rag_node. rewrite Hx, Hq.
    do 4 eexists. split; [reflexivity|]. left. auto. }
  destruct vs as [vs|].
  2:{ unfold Rag.run, Rag.agentic_rag_node. rewrite Hx, Hq.
      do 4 eexists. split; [reflexivity|]. right; left. auto. }
  rewrite (RagFacts.rag_node_run llm vs st q id Hx Hq). cbn [fst].
  match goal with
  | |- context [Rag.tool_result _ ?rel _ _] => destruct rel as [|d ds] eqn:Er
  end;
  do 4 eexists; (split; [reflexivity|]); right; right.
  - left. auto.
  - right. split; [discriminate|]. auto.
Qed.

(** X14: the retrieval node and the chat node keep the retrieval context
    out of the history: the retrieval node appends exactly one tool-result turn whose
    text is an error notice, the "no relevant information" notice or the
    count acknowledgment, never the formatted context; the chat node appends
    only the model's AI turn, the system turn carrying [rag_context] being
    only in the prompt of that call. *)
Theorem rag_chat_nodes_keep_context_out :
  (forall llm vs st,
     exists ack id ctx docs,
       fst (Rag.run (Rag.agentic_rag_node llm vs st)) = Rag.tool_result ctx docs ack id /\
       (ack = "Error: No search query found" \/ ack = "Error: Manual not loaded" \/
        (docs = [] /\ ack = Rag.no_relevant_response) \/
        (docs <> [] /\ ack = Rag.retrieved_response (List.length docs))) /\
       (ctx = "" \/ exists rest, ctx = String "="%char rest) /\
       ~ In "="%char (list_ascii_of_string ack) /\
       ack <> ctx) /\
  (forall llm base st,
     let u := Chat.chat_agent_node llm base st in
     let prompt := Chat._build_chat_prompt (messages st) (rag_context st) base in
     (forall m, In m (u_messages u) -> exists c tcs md, m = AIMessage c tcs md) /\
     (exists sys, hd_error prompt = Some (SystemMessage sys) /\
                  ~ In (SystemMessage sys) (u_messages u)) /\
     u_messages u = [let '(c, tcs, md) := llm prompt in AIMessage c tcs md] /\
     u_rag_context u = None).
Proof.
  split.
  - intros llm vs st.
    destruct (rag_node_shape llm vs st) as (ack & id & ctx & docs & Hu & Hcase).
    exists ack, id, ctx, docs. split; [exact Hu|].
    destruct Hcase as [[-> ->] | [[-> ->] | [[Hd [-> ->]] | [Hd [-> ->]]]]].
    + split; [left; reflexivity|]. split; [left; reflexivity|].
      split; [intros H; apply in_existsb_eqb in H; discriminate | discriminate].
    + split; [right; left; reflexivity|]. split; [left; reflexivity|].
      split; [intros H; apply in_existsb_eqb in H; discriminate | discriminate].
    + split; [right; right; left; auto|]. split; [left; reflexivity|].
      split; [intros H; apply in_existsb_eqb in H; discriminate | discriminate].
    + split; [right; right; right; auto|].
      destruct docs as [|d ds]; [congruence|].
      destruct (format_context_head d ds) as [rest Hr].
      split; [right; exists rest; exact Hr|].
      split; [apply retrieved_response_no_eq|].
      intros E. apply (retrieved_response_no_eq (List.length (d :: ds))).
      rewrite E, Hr. simpl. left. reflexivity.
  - intros llm base st u prompt. subst u prompt.
    unfold Chat.chat_agent_node.
    destruct (llm _) as [[c tcs] md]. simpl.
    split; [intros m [<-|[]]; eauto|].
    split; [|split; reflexivity].
    eexists. split; [reflexivity|]. intros [H|[]]. discriminate.
Qed.

(* ================================================================= *)
(** ** Further properties of the retrieval node *)

(** The verdict of one relevance judgment in [_assess_relevance]: kept when
    the answer contains "yes" (any case) or when the call raises. *)
Definition relevance_verdict (llm : Rag.prompt -> option string) (query : string)
           (doc : document) : bool :=
  match llm (Rag.AssessmentPrompt query (Py.slice_to 500 (page_content doc))) with
  | None => true
  | Some c => Py.contains "yes" (Py.lower c)
  end.

Definition assessment_call (query : string) (doc : document) : Rag.event :=
  Rag.ECompletion (Rag.AssessmentPrompt query (Py.slice_to 500 (page_content doc))).

Lemma assess_loop_spec llm q docs rel log :
  Rag.assess_loop llm q docs rel log
  = ((rel ++ filter (relevance_verdict llm q) docs)%list,
     (log ++ map (assessment_call q) docs)%list).
Proof.
  revert rel log. induction docs as [|d ds IH]; intros rel log.
  - simpl. rewrite !app_nil_r. reflexivity.
  - simpl. unfold Rag.bind, Rag.invoke. rewrite IH.
    unfold relevance_verdict, assessment_call.
    destruct (llm _) as [c|]; [destruct (Py.contains _ _)|];
      rewrite <- !app_assoc; reflexivity.
Qed.

Lemma in_firstn_in {A} n (l : list A) x : In x (firstn n l) -> In x l.
Proof.
  intros H. rewrite <- (firstn_skipn n l). apply in_or_app. left. exact H.
Qed.

Lemma assess_relevance_bounded llm docs q :
  List.length (fst (Rag.run (Rag._assess_relevance llm docs q))) <= 5 /\
  incl (fst (Rag.run (Rag._assess_relevance llm docs q))) docs.
Proof.
  unfold Rag.run, Rag._assess_relevance.
  destruct docs as [|d ds]; [simpl; split; [lia | intros x []]|].
  destruct (Nat.leb (List.length (d :: ds)) 5) eqn:E.
  - unfold Rag.ret. cbn [fst].
    split; [apply Nat.leb_le; exact E | intros x Hx; exact Hx].
  - unfold Rag.bind, Rag.ret. rewrite assess_loop_spec. cbn [fst].
    rewrite app_nil_l. split.
    + rewrite length_firstn. lia.
    + intros x Hx. apply in_firstn_in in Hx. apply filter_In in Hx as [Hx _].
      apply in_firstn_in in Hx. exact Hx.
Qed.

(** X1: [_assess_relevance] returns the documents unchanged, without any
    language-model call, when there are at most 5 of them; otherwise it
    judges each of the first 10 in order (one call each) and returns the
    first 5 kept, in their original order.  The result never has more than
    5 documents and contains only input documents. *)
Theorem assess_relevance_selection :
  forall llm docs q,
    let '(rel, log) := Rag.run (Rag._assess_relevance llm docs q) in
    (if Nat.leb (List.length docs) 5
     then rel = docs /\ log = []
     else rel = firstn 5 (filter (relevance_verdict llm q) (firstn 10 docs)) /\
          log = map (assessment_call q) (firstn 10 docs)) /\
    List.length rel <= 5 /\
    incl rel docs.
Proof.
  intros llm docs q. unfold Rag.run, Rag._assess_relevance.
  destruct docs as [|d ds];
    [simpl; split; [split; reflexivity | split; [lia | intros x []]]|].
  destruct (Nat.leb (List.length (d :: ds)) 5) eqn:E.
  - unfold Rag.ret. split; [split; reflexivity|].
    split; [apply Nat.leb_le; exact E | intros x Hx; exact Hx].
  - unfold Rag.bind, Rag.ret. rewrite assess_loop_spec. cbn [fst snd].
    rewrite app_nil_l. split; [split; reflexivity|]. split.
    + rewrite length_firstn. lia.
    + intros x Hx. apply in_firstn_in in Hx. apply filter_In in Hx as [Hx _].
      apply in_firstn_in in Hx. exact Hx.
Qed.


(** X2: whatever the collaborators do, the retrieval node stores at most 5
    documents in [retrieved_documents], and each of them is among the
    results of one of the searches the node made (so none is stored when
    no search was made). *)
Theorem rag_node_documents_from_searches :
  forall llm vs st,
    let '(u, log) := Rag.run (Rag.agentic_rag_node llm vs st) in
    exists docs,
      u_retrieved_documents u = Some docs /\
      List.length docs <= 5 /\
      forall d, In d docs ->
        exists f q k, vs = Some f /\ In (q, k) (RagFacts.searches log) /\ In d (f q k).
Proof.
  intros llm vs st.
  destruct (Rag._extract_rag_tool_call (messages st)) as [[q id]|] eqn:Hx.
  2:{ unfold Rag.run, Rag.agentic_rag_node. rewrite Hx.
      exists []. split; [reflexivity|]. split; [simpl; lia | intros d []]. }
  destruct (String.eqb q "") eqn:Hq.
  { unfold Rag.run, Rag.agentic_rag_node. rewrite Hx, Hq.
    exists []. split; [reflexivity|]. split; [simpl; lia | intros d []]. }
  destruct vs as [f|].
  2:{ unfold Rag.run, Rag.agentic_rag_node. rewrite Hx, Hq.
      exists []. split; [reflexivity|]. split; [simpl; lia | intros d []]. }
  rewrite (RagFacts.rag_node_run llm f st q id Hx Hq).
  set (r := fst (Rag.run (Rag._reformulate_query llm q))).
  set (rel1 := fst (Rag.run (Rag._assess_relevance llm (f r 5) q))).
  destruct (Nat.ltb (List.length rel1) 2 && negb (String.eqb r q)) eqn:Efb.
  - set (rel2 := fst (Rag.run (Rag._assess_relevance llm (f q 8) q))).
    exists rel2. split; [reflexivity|].
    destruct (assess_relevance_bounded llm (f q 8) q) as [Hlen Hincl].
    split; [exact Hlen|].
    intros d Hd. exists f, q, 8. split; [reflexivity|]. split; [|exact (Hincl d Hd)].
    rewrite !RagFacts.searches_app, RagFacts.reformulate_no_search.
    simpl. rewrite !RagFacts.assess_no_search. simpl. right. left. reflexivity.
  - exists rel1. split; [reflexivity|].
    destruct (assess_relevance_bounded llm (f r 5) q) as [Hlen Hincl].
    split; [exact Hlen|].
    intros d Hd. exists f, r, 5. split; [reflexivity|]. split; [|exact (Hincl d Hd)].
    rewrite !RagFacts.searches_app, RagFacts.reformulate_no_search.
    simpl. left. reflexivity.
Qed.

Lemma rag_node_documents_from_searches_witness :
  exists q k,
    In (q, k) (RagFacts.searches
                 (snd (Rag.run (Rag.agentic_rag_node fuse_llm (Some fuse_store) fuse_state))))
    /\ In (mk_document "Fuse 33: 15A" (Some 240%Z)) (fuse_store q k).
Proof.
  pose proof (rag_node_documents_from_searches fuse_llm (Some fuse_store) fuse_state) as H.
  destruct (Rag.run (Rag.agentic_rag_node fuse_llm (Some fuse_store) fuse_state))
    as [u log] eqn:E.
  destruct H as (docs & Hd & _ & Hin).
  vm_compute in E. injection E as Eu El. subst u log.
  vm_compute in Hd. injection Hd as Hd. subst docs.
  destruct (Hin (mk_document "Fuse 33: 15A" (Some 240%Z)) (or_introl eq_refl))
    as (f & q & k & Hf & Hs & Hdk).
  injection Hf as Hf. subst f.
  exists q, k. split; [exact Hs | exact Hdk].
Defined.

(** X3: when no [search_f150_manual] call is found, when its question is
    empty, or when the node was built without a vector store, the node
    makes no language-model call and no search, and returns an error tool
    result with an empty context and no documents. *)
Theorem rag_node_error_paths :
  forall llm vs st,
    (Rag._extract_rag_tool_call (messages st) = None \/
     (exists id, Rag._extract_rag_tool_call (messages st) = Some ("", id)) \/
     vs = None) ->
    let '(u, log) := Rag.run (Rag.agentic_rag_node llm vs st) in
    log = [] /\
    u_rag_context u = Some "" /\
    u_retrieved_documents u = Some [] /\
    exists err id,
      u_messages u = [ToolMessage err id] /\
      (err = "Error: No search query found" \/ err = "Error: Manual not loaded").
Proof.
  intros llm vs st H. unfold Rag.run, Rag.agentic_rag_node.
  destruct (Rag._extract_rag_tool_call (messages st)) as [[q id]|] eqn:Hx.
  - destruct (String.eqb q "") eqn:Hq.
    + unfold Rag.ret. repeat split. do 2 eexists. split; [reflexivity|]. left; reflexivity.
    + destruct H as [H|[[id' H]|H]]; [discriminate| |].
      * injection H as Hq' _. subst q. discriminate.
      * subst vs. unfold Rag.ret. repeat split. do 2 eexists.
        split; [reflexivity|]. right; reflexivity.
  - unfold Rag.ret. repeat split. do 2 eexists. split; [reflexivity|]. left; reflexivity.
Qed.

Lemma rag_node_error_paths_witness :
  snd (Rag.run (Rag.agentic_rag_node fuse_llm None fuse_state)) = [].
Proof.
  pose proof (rag_node_error_paths fuse_llm None fuse_state
                (or_intror (or_intror eq_refl))) as H.
  destruct (Rag.run (Rag.agentic_rag_node fuse_llm None fuse_state)) as [u log].
  exact (proj1 H).
Defined.

Lemma str_app_assoc (a b c : string) : (a ++ b ++ c)%string = ((a ++ b) ++ c)%string.
Proof. induction a as [|x a IH]; simpl; [reflexivity | rewrite IH; reflexivity]. Qed.

Lemma str_app_nil_r (a : string) : (a ++ "")%string = a.
Proof. induction a as [|x a IH]; simpl; [reflexivity | rewrite IH; reflexivity]. Qed.

Lemma join_in sep parts x :
  In x parts -> exists pre post, Rag.join sep parts = (pre ++ x ++ post)%string.
Proof.
  induction parts as [|p ps IH]; [intros []|].
  intros [<-|Hin].
  - destruct ps as [|p' ps].
    + exists "", "". simpl. rewrite str_app_nil_r. reflexivity.
    + exists "", (sep ++ Rag.join sep (p' :: ps))%string. reflexivity.
  - destruct (IH Hin) as (pre & post & E).
    destruct ps as [|p' ps]; [destruct Hin|].
    exists (p ++ sep ++ pre)%string, post.
    change (Rag.join sep (p :: p' :: ps)) with (p ++ sep ++ Rag.join sep (p' :: ps))%string.
    rewrite E, !str_app_assoc. reflexivity.
Qed.

Lemma join_app_last sep xs f :
  xs <> [] -> Rag.join sep (xs ++ [f])%list = (Rag.join sep xs ++ sep ++ f)%string.
Proof.
  induction xs as [|x xs IH]; [congruence|]. intros _.
  destruct xs as [|x' xs]; [reflexivity|].
  assert (IH' := IH ltac:(discriminate)). simpl app in IH' |- *.
  change (Rag.join sep (x :: x' :: (xs ++ [f])%list))
    with (x ++ sep ++ Rag.join sep (x' :: (xs ++ [f])%list))%string.
  rewrite IH'.
  change (Rag.join sep (x :: x' :: xs)) with (x ++ sep ++ Rag.join sep (x' :: xs))%string.
  rewrite !str_app_assoc. reflexivity.
Qed.

(** The excerpts of [_format_rag_context], numbered from [i]. *)
Fixpoint rag_excerpts (i : nat) (docs : list document) : list string :=
  match docs with
  | [] => []
  | d :: ds =>
    ("[Excerpt " ++ Py.str_of_nat i ++ " - Page "
     ++ match page d with Some p => Py.str_of_Z p | None => "unknown" end
     ++ "]" ++ Rag.nl ++ Py.strip (page_content d) ++ Rag.nl)%string
    :: rag_excerpts (S i) ds
  end.

Lemma format_rag_context_join d ds :
  Rag._format_rag_context (d :: ds)
  = Rag.join Rag.nl (("=== RETRIEVED CONTEXT FROM F-150 MANUAL ===" ++ Rag.nl)%string
                     :: (rag_excerpts 1 (d :: ds)
                         ++ [("=== END OF RETRIEVED CONTEXT ===" ++ Rag.nl)%string])%list).
Proof. reflexivity. Qed.

Lemma rag_excerpts_in i docs d :
  In d docs -> exists x, In x (rag_excerpts i docs) /\
    exists pre, x = (pre ++ Rag.nl ++ Py.strip (page_content d) ++ Rag.nl)%string.
Proof.
  revert i. induction docs as [|d' ds IH]; intros i; [intros []|].
  intros [<-|Hin].
  - eexists. split; [left; reflexivity|].
    eexists. rewrite !str_app_assoc. reflexivity.
  - destruct (IH (S i) Hin) as (x & Hx & E). exists x. split; [right; exact Hx | exact E].
Qed.

(** X4: the formatted retrieval context is empty exactly when there are no
    documents; otherwise it is framed by the header line
    "=== RETRIEVED CONTEXT FROM F-150 MANUAL ===" and the closing line
    "=== END OF RETRIEVED CONTEXT ===", and the stripped text of every
    document appears in it on lines of its own. *)
Theorem format_rag_context_shape :
  forall docs,
    (Rag._format_rag_context docs = "" <-> docs = []) /\
    (docs <> [] ->
     exists body,
       Rag._format_rag_context docs
       = ("=== RETRIEVED CONTEXT FROM F-150 MANUAL ===" ++ Rag.nl ++ Rag.nl ++ body
          ++ "=== END OF RETRIEVED CONTEXT ===" ++ Rag.nl)%string) /\
    (forall d, In d docs ->
     exists pre post,
       Rag._format_rag_context docs
       = (pre ++ Rag.nl ++ Py.strip (page_content d) ++ Rag.nl ++ post)%string).
Proof.
  intros [|d ds].
  - split; [split; reflexivity|]. split; [congruence | intros d []].
  - rewrite format_rag_context_join. split; [split; discriminate|]. split.
    + intros _. exists (Rag.join Rag.nl (rag_excerpts 1 (d :: ds)) ++ Rag.nl)%string.
      change (Rag.join Rag.nl (?h :: (?e ++ ?t)%list))
        with (h ++ Rag.nl ++ Rag.join Rag.nl (e ++ t)%list)%string.
      rewrite join_app_last by discriminate.
      rewrite <- !str_app_assoc. reflexivity.
    + intros d' Hd.
      destruct (rag_excerpts_in 1 (d :: ds) d' Hd) as (x & Hx & pre & ->).
      destruct (join_in Rag.nl
                  (("=== RETRIEVED CONTEXT FROM F-150 MANUAL ===" ++ Rag.nl)%string
                   :: (rag_excerpts 1 (d :: ds)
                       ++ [("=== END OF RETRIEVED CONTEXT ===" ++ Rag.nl)%string])%list)
                  _ (or_intror (in_or_app _ _ _ (or_introl Hx))))
        as (pre' & post & E).
      rewrite E. exists (pre' ++ pre)%string, post.
      rewrite <- !str_app_assoc. reflexivity.
Qed.

Lemma format_rag_context_shape_witness :
  exists pre post,
    Rag._format_rag_context [mk_document "Fuse 33: 15A" (Some 240%Z)]
    = (pre ++ Rag.nl ++ "Fuse 33: 15A" ++ Rag.nl ++ post)%string.
Proof.
  exact (proj2 (proj2 (format_rag_context_shape [mk_document "Fuse 33: 15A" (Some 240%Z)]))
           (mk_document "Fuse 33: 15A" (Some 240%Z)) (or_introl eq_refl)).
Defined.


(** A message carries no [search_f150_manual] call. *)
Definition no_search_call (m : message) : Prop :=
  find (fun tc => String.eqb (tc_name tc) Rag.search_tool_name) (tool_calls_of m) = None.

Lemma extract_skip l1 l2 :
  (forall m, In m l1 -> no_search_call m) ->
  Rag.extract_from_reversed (l1 ++ l2)%list = Rag.extract_from_reversed l2.
Proof.
  induction l1 as [|m l1 IH]; intros H; [reflexivity|].
  simpl. rewrite (H m (or_introl eq_refl)). apply IH.
  intros m' Hm'. apply H. right. exact Hm'.
Qed.

(** X5: [_extract_rag_tool_call] reads the most recent message holding a
    [search_f150_manual] call, and within it the first such call: messages
    after it without such a call (human turns, tool results, system
    messages, AI turns calling other tools) never change the result, and
    the query is that call's "question" argument, or "" when it has none. *)
Theorem extract_rag_tool_call_latest :
  forall msgs c tcs md rest tc,
    find (fun tc => String.eqb (tc_name tc) Rag.search_tool_name) tcs = Some tc ->
    (forall m, In m rest -> no_search_call m) ->
    Rag._extract_rag_tool_call (msgs ++ AIMessage c tcs md :: rest)%list
    = Some (match find (fun kv => String.eqb (fst kv) "question") (tc_args tc) with
            | Some (_, q) => q
            | None => ""
            end, tc_id tc) /\
    Rag._extract_rag_tool_call (msgs ++ rest)%list = Rag._extract_rag_tool_call msgs.
Proof.
  intros msgs c tcs md rest tc Hf Hrest. unfold Rag._extract_rag_tool_call.
  split.
  - rewrite rev_app_distr. simpl. rewrite <- app_assoc.
    rewrite extract_skip by (intros m Hm; apply Hrest; apply in_rev; exact Hm).
    simpl. rewrite Hf. destruct (find _ (tc_args tc)) as [[k q]|]; reflexivity.
  - rewrite rev_app_distr.
    apply extract_skip. intros m Hm. apply Hrest. apply in_rev. exact Hm.
Qed.

Lemma extract_rag_tool_call_latest_witness :
  Rag._extract_rag_tool_call
    ([AIMessage "" [search_call "old question" "call_0"] []]
     ++ AIMessage "" [web_call "recall" "call_1"; search_call "fuse 33" "call_2"] []
     :: [ToolMessage "done" "call_2"; HumanMessage "thanks"])%list
  = Some ("fuse 33", "call_2").
Proof.
  exact (proj1 (extract_rag_tool_call_latest
                  [AIMessage "" [search_call "old question" "call_0"] []] ""
                  [web_call "recall" "call_1"; search_call "fuse 33" "call_2"] []
                  [ToolMessage "done" "call_2"; HumanMessage "thanks"]
                  (search_call "fuse 33" "call_2") eq_refl
                  ltac:(intros m [<-|[<-|[]]]; reflexivity))).
Defined.

(** X6: [_reformulate_query] makes exactly one language-model call, with
    the reformulation prompt for the query, and no search; for a non-empty
    query it never returns the empty string. *)
Theorem reformulate_query_single_call :
  forall llm q,
    snd (Rag.run (Rag._reformulate_query llm q)) = [Rag.ECompletion (Rag.ReformulationPrompt q)] /\
    (q <> "" -> fst (Rag.run (Rag._reformulate_query llm q)) <> "").
Proof.
  intros llm q. unfold Rag.run, Rag._reformulate_query, Rag.bind, Rag.invoke.
  destruct (llm (Rag.ReformulationPrompt q)) as [c|]; cbn [fst snd app].
  - unfold Rag.ret. cbn [fst snd]. split; [reflexivity|].
    intros Hq. match goal with
               | |- (if String.eqb ?x "" then _ else _) <> _ =>
                 destruct (String.eqb x "") eqn:E
               end; [exact Hq|].
    apply String.eqb_neq in E. exact E.
  - unfold Rag.ret. cbn [fst snd]. split; [reflexivity | exact (fun H => H)].
Qed.

Lemma reformulate_query_single_call_witness :
  fst (Rag.run (Rag._reformulate_query (fun _ => Some "  ") "oil capacity")) <> "".
Proof.
  exact (proj2 (reformulate_query_single_call (fun _ => Some "  ") "oil capacity")
               ltac:(discriminate)).
Defined.

(* ================================================================= *)
(** ** Further properties of the approval gate *)

(** X7: a disabled approval gate passes with an empty update on every state,
    even an empty history; an enabled gate raises on an empty history, and
    it suspends exactly when the last message carries tool calls, with the
    request built from those calls and the decision handler [on_decision];
    otherwise it passes with an empty update. *)
Theorem approval_gate_suspends_iff :
  forall enabled st,
    (enabled = false -> Approval.approval_node enabled st = Some (Approval.Pass empty_update)) /\
    (enabled = true -> messages st = [] -> Approval.approval_node enabled st = None) /\
    (forall req k,
       Approval.approval_node enabled st = Some (Approval.Suspend req k) <->
       enabled = true /\
       exists pre m, messages st = (pre ++ [m])%list /\ tool_calls_of m <> [] /\
                     req = Approval._build_approval_prompt (tool_calls_of m) /\
                     k = Approval.on_decision) /\
    (forall u, Approval.approval_node enabled st = Some (Approval.Pass u) -> u = empty_update).
Proof.
  intros enabled st. unfold Approval.approval_node.
  destruct enabled; cbn [negb].
  2:{ split; [reflexivity|]. split; [discriminate|]. split.
      - intros req k. split; [discriminate | intros [H _]; discriminate].
      - intros u H. injection H as <-. reflexivity. }
  split; [discriminate|].
  destruct (messages st) as [|m0 ms0] eqn:Hm.
  { split; [reflexivity|]. split.
    - intros req k. split; [discriminate|].
      intros [_ (pre & m & E & _)]. destruct pre; discriminate.
    - intros u H. discriminate. }
  split; [discriminate|].
  destruct (exists_last (l := m0 :: ms0) ltac:(discriminate)) as (pre & m & E).
  rewrite E, last_some_app.
  destruct (tool_calls_of m) as [|tc tcs] eqn:Htc.
  - split.
    + intros req k. split; [discriminate|].
      intros [_ (pre' & m' & E' & Hne & _)].
      apply app_inj_tail in E' as [_ <-]. congruence.
    + intros u H. injection H as <-. reflexivity.
  - split.
    + intros req k. split.
      * intros H. injection H as <- <-. split; [reflexivity|].
        exists pre, m. split; [reflexivity|]. split; [rewrite Htc; discriminate|].
        split; [rewrite Htc; reflexivity | reflexivity].
      * intros [_ (pre' & m' & E' & Hne & -> & ->)].
        apply app_inj_tail in E' as [_ <-]. rewrite Htc. reflexivity.
    + intros u H. discriminate.
Qed.

Lemma approval_gate_suspends_iff_witness :
  Approval.approval_node true (initial_state []) = None.
Proof.
  exact (proj1 (proj2 (approval_gate_suspends_iff true (initial_state [])))
               eq_refl eq_refl).
Defined.

(* ================================================================= *)
(** ** Further properties of the context tracker *)

Definition not_ai (m : message) : Prop :=
  forall c tcs md, m <> AIMessage c tcs md.

Lemma last_ai_fold_skip l acc :
  (forall m, In m l -> not_ai m) ->
  fold_left (fun acc m => match m with AIMessage _ _ md => Some md | _ => acc end) l acc = acc.
Proof.
  revert acc. induction l as [|m l IH]; intros acc H; [reflexivity|].
  simpl. destruct m as [c|c tcs md|c i|c];
    try (apply IH; intros m' Hm'; apply H; right; exact Hm').
  exfalso. exact (H _ (or_introl eq_refl) c tcs md eq_refl).
Qed.

(** X8: the context tracker reads the metadata of the most recent AI
    message only (later tool results or system messages are skipped); with
    no AI message in the history it returns an empty update and prints
    nothing; and built with a context limit of 0 it raises (division by
    zero) as soon as that metadata reports a non-zero token count. *)
Theorem token_tracking_edges :
  forall fmt limit thr st,
    ((forall m, In m (messages st) -> not_ai m) ->
     TokenTracking.token_tracking_node fmt limit thr st = Some (empty_update, [])) /\
    (forall pre c tcs md rest,
       messages st = (pre ++ AIMessage c tcs md :: rest)%list ->
       (forall m, In m rest -> not_ai m) ->
       TokenTracking.last_ai_metadata (messages st) = Some md) /\
    (limit = 0%Z -> forall md,
       TokenTracking.last_ai_metadata (messages st) = Some md ->
       (TokenTracking.meta_get "prompt_eval_count" md <> 0%Z \/
        TokenTracking.meta_get "eval_count" md <> 0%Z) ->
       TokenTracking.token_tracking_node fmt limit thr st = None).
Proof.
  intros fmt limit thr st. split; [|split].
  - intros H. unfold TokenTracking.token_tracking_node, TokenTracking.last_ai_metadata.
    rewrite last_ai_fold_skip by exact H. reflexivity.
  - intros pre c tcs md rest E H. unfold TokenTracking.last_ai_metadata.
    rewrite E, fold_left_app. simpl. apply last_ai_fold_skip. exact H.
  - intros -> md Hmd Hnz. unfold TokenTracking.token_tracking_node.
    rewrite Hmd.
    destruct (Z.eqb (TokenTracking.meta_get "prompt_eval_count" md) 0) eqn:E1;
    destruct (Z.eqb (TokenTracking.meta_get "eval_count" md) 0) eqn:E2;
    apply Z.eqb_eq in E1 || apply Z.eqb_neq in E1;
    apply Z.eqb_eq in E2 || apply Z.eqb_neq in E2;
    try (exfalso; destruct Hnz; contradiction); reflexivity.
Qed.

Lemma token_tracking_edges_witness :
  TokenTracking.token_tracking_node (fun _ _ => "") 0 80
    (initial_state [HumanMessage "oil?";
                    AIMessage "5 qt" [] [("prompt_eval_count", 120%Z); ("eval_count", 30%Z)]])
  = None.
Proof.
  apply (proj2 (proj2 (token_tracking_edges (fun _ _ => "") 0 80
          (initial_state [HumanMessage "oil?";
                          AIMessage "5 qt" [] [("prompt_eval_count", 120%Z); ("eval_count", 30%Z)]])))
          eq_refl [("prompt_eval_count", 120%Z); ("eval_count", 30%Z)]).
  - reflexivity.
  - left. discriminate.
Defined.

(* ================================================================= *)
(** ** Shape of a turn of the compiled graph *)

Lemma should_continue_cases st s :
  Graph.should_continue st = Some s -> s = Graph.TOOLS \/ s = Graph.TOKEN_TRACKER.
Proof.
  unfold Graph.should_continue.
  destruct (last (map Some (messages st)) None) as [[c|c tcs md|c i|c]|];
    try discriminate.
  destruct tcs; intros H; injection H as <-; [right | left]; reflexivity.
Qed.

(** The node sequence [agent (tools agent)^k token_tracker]. *)
Definition agent_loop (k : nat) : list string :=
  (Graph.AGENT :: List.concat (repeat [Graph.TOOLS; Graph.AGENT] k) ++ [Graph.TOKEN_TRACKER])%list.

Lemma run_from_agent llm tn sys fmt fuel :
  forall st acc st' tr,
    Graph.run llm tn sys fmt fuel Graph.AGENT st acc = Graph.Finished st' tr ->
    exists k, tr = (rev acc ++ agent_loop k)%list.
Proof.
  induction fuel as [fuel IH] using (well_founded_induction lt_wf).
  intros st acc st' tr H.
  destruct fuel as [|f]; [discriminate|].
  cbn [Graph.run] in H. change (String.eqb Graph.AGENT Graph.END) with false in H.
  cbn iota in H.
  change (Graph.run_node llm tn sys fmt Graph.AGENT st)
    with (Some (apply_update (Graph.call_model llm sys st) st)) in H.
  cbn iota beta in H.
  change (Graph.next_node Graph.AGENT ?s) with (Graph.should_continue s) in H.
  destruct (Graph.should_continue (apply_update (Graph.call_model llm sys st) st))
    as [s|] eqn:Hs; [|discriminate].
  destruct (should_continue_cases _ _ Hs) as [->| ->].
  - destruct f as [|f]; [discriminate|].
    cbn [Graph.run] in H. change (String.eqb Graph.TOOLS Graph.END) with false in H.
    cbn iota in H.
    change (Graph.run_node llm tn sys fmt Graph.TOOLS ?s)
      with (Some (apply_update (tn s) s)) in H.
    cbn iota beta in H.
    change (Graph.next_node Graph.TOOLS ?s) with (Some Graph.AGENT) in H.
    cbn iota beta in H.
    destruct (IH f ltac:(lia) _ _ _ _ H) as [k ->].
    exists (S k). simpl. rewrite <- !app_assoc. reflexivity.
  - destruct f as [|f]; [discriminate|].
    cbn [Graph.run] in H. change (String.eqb Graph.TOKEN_TRACKER Graph.END) with false in H.
    cbn iota in H.
    change (Graph.run_node llm tn sys fmt Graph.TOKEN_TRACKER ?s)
      with (match TokenTracking.token_tracking_node fmt Graph.CONTEXT_LIMIT 80 s with
            | Some (u, _) => Some (apply_update u s)
            | None => None
            end) in H.
    destruct (TokenTracking.token_tracking_node _ _ _ _) as [[u out]|]; [|discriminate].
    cbn iota beta in H.
    change (Graph.next_node Graph.TOKEN_TRACKER ?s) with (Some Graph.END) in H.
    cbn iota beta in H.
    destruct f as [|f]; [discriminate|].
    cbn [Graph.run] in H. change (String.eqb Graph.END Graph.END) with true in H.
    cbn iota in H. injection H as _ <-.
    exists 0. simpl. rewrite <- !app_assoc. reflexivity.
Qed.

(** X9: every turn of the compiled graph that finishes runs either the
    pre-filter alone, when the user's message is conversational, or the
    pre-filter, then the agent, any number of tools/agent rounds, and the
    token tracker last, when it is not: the tracker runs exactly once per
    non-conversational turn, after the final agent call. *)
Theorem graph_turn_trace :
  forall llm tn sys fmt fuel st text st' tr,
    Graph.invoke llm tn sys fmt fuel st text = Graph.Finished st' tr ->
    (Filter.is_conversational_only text = true /\ tr = [Graph.PRE_FILTER]) \/
    (Filter.is_conversational_only text = false /\
     exists k, tr = Graph.PRE_FILTER :: agent_loop k).
Proof.
  intros llm tn sys fmt fuel st text st' tr H. unfold Graph.invoke in H.
  set (st0 := apply_update (mk_update [HumanMessage text] None None None None None None None) st)
    in H.
  destruct fuel as [|f]; [discriminate|].
  cbn [Graph.run] in H. change (String.eqb Graph.PRE_FILTER Graph.END) with false in H.
  cbn iota in H.
  change (Graph.run_node llm tn sys fmt Graph.PRE_FILTER st0)
    with (Some (apply_update (Filter.pre_filter_node "2018 F-150" st0) st0)) in H.
  cbn iota beta in H.
  change (Graph.next_node Graph.PRE_FILTER ?s) with (Some (Graph.should_bypass_agent s)) in H.
  cbn iota beta in H.
  assert (Hl : Filter.last_user_message (messages st0) = Some text)
    by apply FilterFacts.last_user_message_app.
  destruct (Filter.is_conversational_only text) eqn:Hc.
  - left. split; [reflexivity|].
    assert (Hb : Graph.should_bypass_agent
                   (apply_update (Filter.pre_filter_node "2018 F-150" st0) st0) = Graph.END).
    { unfold Graph.should_bypass_agent, Filter.pre_filter_node.
      rewrite Hl, Hc. reflexivity. }
    rewrite Hb in H. destruct f as [|f]; [discriminate|].
    cbn [Graph.run] in H. change (String.eqb Graph.END Graph.END) with true in H.
    cbn iota in H. injection H as _ <-. reflexivity.
  - right. split; [reflexivity|].
    assert (Hb : Graph.should_bypass_agent
                   (apply_update (Filter.pre_filter_node "2018 F-150" st0) st0) = Graph.AGENT).
    { unfold Graph.should_bypass_agent, Filter.pre_filter_node.
      rewrite Hl, Hc. reflexivity. }
    rewrite Hb in H. destruct (run_from_agent _ _ _ _ _ _ _ _ _ H) as [k ->].
    exists k. reflexivity.
Qed.

Lemma graph_turn_trace_witness :
  match Graph.invoke (fun _ => ("Use 5W-20 oil."%string, [], [("prompt_eval_count", 120%Z); ("eval_count", 30%Z)]))
                     (fun _ => empty_update) "" (fun _ _ => "") 10 (initial_state [])
                     "What oil does the engine take?" with
  | Graph.Finished st' tr =>
    (Filter.is_conversational_only "What oil does the engine take?" = true /\ tr = [Graph.PRE_FILTER]) \/
    (Filter.is_conversational_only "What oil does the engine take?" = false /\
     exists k, tr = Graph.PRE_FILTER :: agent_loop k)
  | _ => False
  end.
Proof.
  destruct (Graph.invoke _ _ _ _ 10 (initial_state []) "What oil does the engine take?")
    as [st' tr|tr|] eqn:E.
  - exact (graph_turn_trace _ _ _ _ _ _ _ _ _ E).
  - vm_compute in E. discriminate.
  - vm_compute in E. discriminate.
Defined.

(* ================================================================= *)
(** ** Normalisation in the pre-filter *)

Lemma lower_char_space c : Py.isspace c = true -> Py.lower_char c = c.
Proof.
  destruct c as [[] [] [] [] [] [] [] []]; vm_compute; intros H;
    first [reflexivity | discriminate H].
Qed.

Lemma lower_app a b : Py.lower (a ++ b) = (Py.lower a ++ Py.lower b)%string.
Proof. induction a as [|c a IH]; simpl; [reflexivity | rewrite IH; reflexivity]. Qed.

Lemma lower_spaces w : Filter.all_chars Py.isspace w = true -> Py.lower w = w.
Proof.
  induction w as [|c w IH]; simpl; [reflexivity|].
  intros H. apply andb_prop in H as [Hc Hw].
  rewrite lower_char_space, IH by assumption. reflexivity.
Qed.


Lemma lstrip_app_all p w x :
  Filter.all_chars p w = true -> Py.lstrip_by p (w ++ x) = Py.lstrip_by p x.
Proof.
  induction w as [|c w IH]; simpl; [reflexivity|].
  intros H. apply andb_prop in H as [Hc Hw]. rewrite Hc. apply IH. exact Hw.
Qed.

Lemma all_chars_list p s :
  Filter.all_chars p s = forallb p (list_ascii_of_string s).
Proof. induction s as [|c s IH]; simpl; [reflexivity | rewrite IH; reflexivity]. Qed.

Lemma rev_string_app a b :
  Py.rev_string (a ++ b) = (Py.rev_string b ++ Py.rev_string a)%string.
Proof.
  unfold Py.rev_string. rewrite list_ascii_append, rev_app_distr.
  apply (f_equal (fun l => l)).
  rewrite <- (string_of_list_ascii_of_string
                (string_of_list_ascii (rev (list_ascii_of_string b))
                 ++ string_of_list_ascii (rev (list_ascii_of_string a)))).
  rewrite list_ascii_append, !list_ascii_of_string_of_list_ascii. reflexivity.
Qed.

Lemma rev_string_all p w :
  Filter.all_chars p w = true -> Filter.all_chars p (Py.rev_string w) = true.
Proof.
  rewrite !all_chars_list. unfold Py.rev_string.
  rewrite list_ascii_of_string_of_list_ascii.
  intros H. apply forallb_forall. intros c Hc. apply in_rev in Hc.
  exact (proj1 (forallb_forall _ _) H c Hc).
Qed.

Lemma rev_string_involutive s : Py.rev_string (Py.rev_string s) = s.
Proof.
  unfold Py.rev_string. rewrite list_ascii_of_string_of_list_ascii, rev_involutive.
  apply string_of_list_ascii_of_string.
Qed.

Lemma rstrip_app_all p x w :
  Filter.all_chars p w = true -> Py.rstrip_by p (x ++ w) = Py.rstrip_by p x.
Proof.
  intros H. unfold Py.rstrip_by. rewrite rev_string_app.
  rewrite lstrip_app_all by (apply rev_string_all; exact H). reflexivity.
Qed.

Lemma lstrip_all p w : Filter.all_chars p w = true -> Py.lstrip_by p w = "".
Proof.
  intros H. rewrite <- (str_app_nil_r w), lstrip_app_all by exact H. reflexivity.
Qed.

Lemma strip_app_all p w1 x w2 :
  Filter.all_chars p w1 = true -> Filter.all_chars p w2 = true ->
  Py.strip_by p (w1 ++ x ++ w2) = Py.strip_by p x.
Proof.
  intros H1 H2. unfold Py.strip_by. rewrite lstrip_app_all by exact H1.
  induction x as [|c x IH]; simpl.
  - rewrite lstrip_all by exact H2. reflexivity.
  - destruct (p c) eqn:Hc; [exact IH|].
    change (String c (x ++ w2)) with (String c x ++ w2)%string.
    apply rstrip_app_all. exact H2.
Qed.

(** X10: the pre-filter's classification and canned reply ignore letter case
    and surrounding whitespace: two messages with the same lowercase form
    get the same answers, also when one of them is padded with whitespace
    on either side. *)
Theorem conversational_normalisation :
  forall s t w1 w2,
    Py.lower t = Py.lower s ->
    Filter.all_chars Py.isspace w1 = true ->
    Filter.all_chars Py.isspace w2 = true ->
    Filter.is_conversational_only (w1 ++ t ++ w2) = Filter.is_conversational_only s /\
    Filter.get_conversational_response (w1 ++ t ++ w2) = Filter.get_conversational_response s.
Proof.
  intros s t w1 w2 Hl H1 H2.
  assert (E : Py.strip (Py.lower (w1 ++ t ++ w2)) = Py.strip (Py.lower s)).
  { rewrite !lower_app, lower_spaces by exact H1.
    rewrite (lower_spaces w2) by exact H2. rewrite Hl.
    unfold Py.strip. apply strip_app_all; assumption. }
  unfold Filter.is_conversational_only, Filter.get_conversational_response.
  rewrite E. split; reflexivity.
Qed.

Lemma conversational_normalisation_witness :
  Filter.is_conversational_only
    (" " ++ "Thanks!" ++ String (ascii_of_nat 10) "")%string = true.
Proof.
  rewrite (proj1 (conversational_normalisation "thanks!" "Thanks!" " "
                    (String (ascii_of_nat 10) "") eq_refl eq_refl eq_refl)).
  reflexivity.
Defined.

(* ================================================================= *)
(** ** Console progress bar *)

(** What [_display_token_usage] draws for a cumulative total [t] under the
    configured context limit: the cell count and the two label tests of
    [_get_progress_bar(usage_percentage)] compared with their integer
    counterparts. *)
Definition bar_at_limit_ok (t : Z) : bool :=
  match TokenDisplay.usage_percentage t Graph.CONTEXT_LIMIT with
  | Some p =>
    match TokenDisplay.py_int
            (TokenDisplay.fmul (TokenDisplay.fdiv p (TokenDisplay.float_of_int 100))
                               (TokenDisplay.float_of_int 40)) with
    | Some f =>
      Z.eqb f (40 * t / Graph.CONTEXT_LIMIT) &&
      Bool.eqb (TokenDisplay.fltb p (TokenDisplay.float_of_int 50))
               (Z.ltb (2 * t) Graph.CONTEXT_LIMIT) &&
      Bool.eqb (TokenDisplay.fltb p (TokenDisplay.float_of_int 80))
               (Z.ltb (5 * t) (4 * Graph.CONTEXT_LIMIT))
    | None => false
    end
  | None => false
  end.

Fixpoint bar_check_from (fuel : nat) (t : Z) : bool :=
  match fuel with
  | O => true
  | S f => bar_at_limit_ok t && bar_check_from f (t + 1)
  end.

Lemma bar_check_from_spec n t0 :
  bar_check_from n t0 = true ->
  forall t, (t0 <= t < t0 + Z.of_nat n)%Z -> bar_at_limit_ok t = true.
Proof.
  revert t0. induction n as [|n IH]; intros t0 H t Ht; [lia|].
  simpl in H. apply andb_prop in H as [H0 H1].
  destruct (Z.eq_dec t t0) as [->|Hne]; [exact H0|].
  apply (IH (t0 + 1)%Z H1). lia.
Qed.

Lemma bar_check_all : bar_check_from (Z.to_nat 128001) 0 = true.
Proof. vm_compute. reflexivity. Qed.

(** X11: with the configured context limit (128000) and the default width
    40, for every cumulative total [t] from 0 to the limit the console bar
    computed in binary64 has exactly [floor(40 t / 128000)] full cells
    followed by the remaining dash cells (40 cells in all, whatever the
    rounding of the two float products), and its label is "LOW" exactly
    below half the limit and "HIGH" exactly from 80% of it. *)
Theorem progress_bar_cells :
  forall (format_pct : TokenDisplay.float -> string) (t : Z),
    (0 <= t <= Graph.CONTEXT_LIMIT)%Z ->
    exists p,
      TokenDisplay.usage_percentage t Graph.CONTEXT_LIMIT = Some p /\
      TokenDisplay._get_progress_bar format_pct p 40
      = Some ("[" ++ TokenDisplay.repeat_str TokenDisplay.FULL_BLOCK
                      (Z.to_nat (40 * t / Graph.CONTEXT_LIMIT))
              ++ TokenDisplay.repeat_str "-"
                   (Z.to_nat (40 - 40 * t / Graph.CONTEXT_LIMIT))
              ++ "] " ++ format_pct p ++ "% ("
              ++ (if Z.ltb (2 * t) Graph.CONTEXT_LIMIT then "LOW"
                  else if Z.ltb (5 * t) (4 * Graph.CONTEXT_LIMIT) then "MEDIUM"
                  else "HIGH")
              ++ ")").
Proof.
  intros format_pct t Ht.
  assert (Hok : bar_at_limit_ok t = true).
  { apply (bar_check_from_spec _ 0 bar_check_all).
    rewrite Z2Nat.id by lia. unfold Graph.CONTEXT_LIMIT in Ht. lia. }
  unfold bar_at_limit_ok in Hok.
  destruct (TokenDisplay.usage_percentage t Graph.CONTEXT_LIMIT) as [p|];
    [|discriminate].
  exists p. split; [reflexivity|].
  unfold TokenDisplay._get_progress_bar.
  destruct (TokenDisplay.py_int _) as [f|]; [|discriminate].
  apply andb_prop in Hok as [Hok H80].
  apply andb_prop in Hok as [Hf H50].
  apply Z.eqb_eq in Hf. apply Bool.eqb_prop in H50. apply Bool.eqb_prop in H80.
  rewrite Hf, H50, H80. reflexivity.
Qed.

Lemma progress_bar_cells_witness :
  exists p,
    TokenDisplay.usage_percentage 102400 Graph.CONTEXT_LIMIT = Some p /\
    TokenDisplay._get_progress_bar (fun _ => "80.0") p 40
    = Some ("[" ++ TokenDisplay.repeat_str TokenDisplay.FULL_BLOCK 32
            ++ TokenDisplay.repeat_str "-" 8 ++ "] 80.0% (HIGH)").
Proof.
  destruct (progress_bar_cells (fun _ => "80.0") 102400) as [p [Hp Hb]].
  { unfold Graph.CONTEXT_LIMIT. lia. }
  exists p. split; [exact Hp|]. rewrite Hb. reflexivity.
Defined.

(* ================================================================= *)
(** ** CLI rendering of an approval request *)

Lemma str_length_app (a b : string) : length (a ++ b) = length a + length b.
Proof. induction a as [|c a IH]; simpl; [reflexivity | rewrite IH; reflexivity]. Qed.

Lemma substring_prefix_length n s : n <= length s -> length (substring 0 n s) = n.
Proof.
  revert s. induction n as [|n IH]; intros s H; [destruct s; reflexivity|].
  destruct s as [|c s]; simpl in *; [lia|]. rewrite IH; [reflexivity | lia].
Qed.

Lemma arg_lines_in args key value :
  In (key, value) args ->
  In ("      " ++ key ++ ": "
      ++ (if Nat.ltb 100 (length value) then substring 0 100 value ++ "..." else value))%string
     (ApprovalCLI.arg_lines args).
Proof.
  induction args as [|[k v] args IH]; [intros []|].
  intros [E|Hin]; [injection E as -> ->; left; reflexivity | right; exact (IH Hin)].
Qed.

Lemma tool_lines_header j tcs i tc :
  nth_error tcs i = Some tc ->
  In (ApprovalCLI.nl ++ "[" ++ Py.str_of_nat (j + i) ++ "] Tool: " ++ tc_name tc)%string
     (ApprovalCLI.tool_lines j tcs).
Proof.
  revert j i. induction tcs as [|t tcs IH]; intros j i H; [destruct i; discriminate|].
  destruct i as [|i]; simpl in H.
  - injection H as ->. left. rewrite Nat.add_0_r. reflexivity.
  - right. right. apply in_or_app. right.
    replace (j + S i) with (S j + i) by lia. apply IH. exact H.
Qed.

Lemma tool_lines_args j tcs tc line :
  In tc tcs -> In line (ApprovalCLI.arg_lines (tc_args tc)) ->
  In line (ApprovalCLI.tool_lines j tcs).
Proof.
  revert j. induction tcs as [|t tcs IH]; intros j; [intros []|].
  intros [<-|Hin] Hl; simpl; right; right; apply in_or_app; [left; exact Hl|].
  right. apply IH; assumption.
Qed.

(** X12: the CLI text of an approval request built from tool calls [tcs]
    lists every call under a header "[i] Tool: name", numbered from 1 in
    order, shows every argument as "key: value" with the value verbatim
    when it has at most 100 characters and cut to its first 100 characters
    followed by "..." (103 characters in all) otherwise, and ends with the
    question "Approve execution of these K tool(s)? (y/n): " for K the
    number of calls. *)
Theorem approval_cli_lists_calls :
  forall py_str tcs,
    ApprovalCLI.format_approval_prompt_for_cli py_str (Approval._build_approval_prompt tcs)
    = Rag.join ApprovalCLI.nl (ApprovalCLI.cli_lines tcs) /\
    last (ApprovalCLI.cli_lines tcs) ""
    = ("Approve execution of these " ++ Py.str_of_nat (List.length tcs) ++ " tool(s)? (y/n): ")%string /\
    (forall i tc, nth_error tcs i = Some tc ->
       In (ApprovalCLI.nl ++ "[" ++ Py.str_of_nat (S i) ++ "] Tool: " ++ tc_name tc)%string
          (ApprovalCLI.cli_lines tcs)) /\
    (forall tc key value, In tc tcs -> In (key, value) (tc_args tc) ->
       exists shown,
         In ("      " ++ key ++ ": " ++ shown)%string (ApprovalCLI.cli_lines tcs) /\
         (length value <= 100 -> shown = value) /\
         (100 < length value ->
          shown = (substring 0 100 value ++ "...")%string /\ length shown = 103)).
Proof.
  intros py_str tcs. split; [reflexivity|]. split.
  { assert (L : forall (l : list string) x y, last (l ++ [x; y])%list "" = y).
    { intros l x y. change [x; y] with ([x] ++ [y])%list.
      rewrite app_assoc. apply last_last. }
    unfold ApprovalCLI.cli_lines. rewrite app_assoc. apply L. }
  split.
  - intros i tc H. unfold ApprovalCLI.cli_lines. cbn [app]. right. right. right.
    apply in_or_app. left.
    pose proof (tool_lines_header 1 tcs i tc H) as Hh. cbn [Nat.add] in Hh. exact Hh.
  - intros tc key value Htc Harg.
    eexists. split.
    + unfold ApprovalCLI.cli_lines. cbn [app]. right. right. right.
      apply in_or_app. left. apply (tool_lines_args 1 tcs tc _ Htc).
      exact (arg_lines_in _ _ _ Harg).
    + split.
      * intros H. destruct (Nat.ltb 100 (length value)) eqn:E; [|reflexivity].
        apply Nat.ltb_lt in E. lia.
      * intros H. destruct (Nat.ltb 100 (length value)) eqn:E;
          [|apply Nat.ltb_ge in E; lia].
        split; [reflexivity|]. rewrite str_length_app, substring_prefix_length by lia.
        reflexivity.
Qed.

Lemma approval_cli_lists_calls_witness :
  exists shown,
    In ("      " ++ "question" ++ ": " ++ shown)%string
       (ApprovalCLI.cli_lines [search_call "fuse 33" "call_1"]).
Proof.
  destruct (proj2 (proj2 (proj2 (approval_cli_lists_calls (fun _ => "")
                                   [search_call "fuse 33" "call_1"])))
              (search_call "fuse 33" "call_1") "question" "fuse 33"
              (or_introl eq_refl) (or_introl eq_refl)) as (shown & H & _).
  exists shown. exact H.
Defined.

(* ================================================================= *)
(** ** Manual search tool *)

Lemma join_mid sep xs y zs :
  xs <> [] -> zs <> [] ->
  Rag.join sep (xs ++ y :: zs)%list
  = (Rag.join sep xs ++ sep ++ y ++ sep ++ Rag.join sep zs)%string.
Proof.
  intros Hx Hz. induction xs as [|x xs IH]; [congruence|].
  destruct xs as [|x' xs].
  - destruct zs as [|z zs]; [congruence|]. reflexivity.
  - assert (IH' := IH ltac:(discriminate)). simpl app in IH' |- *.
    change (Rag.join sep (x :: x' :: (xs ++ y :: zs)%list))
      with (x ++ sep ++ Rag.join sep (x' :: (xs ++ y :: zs)%list))%string.
    rewrite IH'.
    change (Rag.join sep (x :: x' :: xs)) with (x ++ sep ++ Rag.join sep (x' :: xs))%string.
    rewrite <- !str_app_assoc. reflexivity.
Qed.

Lemma section_parts_split j docs d :
  In d docs ->
  exists hdr A B,
    ManualSearch.section_parts j docs
    = (A ++ hdr :: Py.strip (page_content d) :: TokenDisplay.repeat_str "-" 50 :: B)%list.
Proof.
  revert j. induction docs as [|d' ds IH]; intros j; [intros []|].
  intros [<-|Hin].
  - eexists. exists [], (ManualSearch.section_parts (S j) ds). reflexivity.
  - destruct (IH (S j) Hin) as (hdr & A & B & E).
    exists hdr, (firstn 3 (ManualSearch.section_parts j (d' :: ds)) ++ A)%list, B.
    simpl. rewrite E. reflexivity.
Qed.

(** Every chunk found by the manual search is in its output, stripped, on
    lines of its own. *)
Lemma search_output_chunk_lines vs question d :
  In d (vs question 5) ->
  exists pre post,
    ManualSearch.search_f150_manual (Some vs) question
    = (pre ++ ManualSearch.nl ++ Py.strip (page_content d) ++ ManualSearch.nl ++ post)%string.
Proof.
  intros Hd. unfold ManualSearch.search_f150_manual.
  destruct (section_parts_split 1 (vs question 5) d Hd) as (hdr & A & B & Hs).
  destruct (vs question 5) as [|d0 ds]; [destruct Hd|].
  rewrite Hs.
  set (h := ("Here are the relevant sections from the F-150 Owner's Manual:" ++ ManualSearch.nl)%string).
  replace (h :: (A ++ hdr :: Py.strip (page_content d) :: TokenDisplay.repeat_str "-" 50 :: B))%list
    with (((h :: A) ++ [hdr]) ++ Py.strip (page_content d)
                     :: (TokenDisplay.repeat_str "-" 50 :: B))%list
    by (simpl; rewrite <- app_assoc; reflexivity).
  rewrite join_mid by (try destruct A; discriminate).
  exists (Rag.join ManualSearch.nl ((h :: A) ++ [hdr])%list),
         (Rag.join ManualSearch.nl (TokenDisplay.repeat_str "-" 50 :: B)).
  reflexivity.
Qed.

(** X13: the manual-search tool returns "Error: Manual not loaded. Please
    restart the application." while no vector store is set, and "No
    relevant information found in the manual for this question." when the
    search (top 5) finds nothing; otherwise its result contains the
    stripped text of every chunk found, verbatim, on lines of its own. *)
Theorem manual_search_output :
  forall store question,
    (store = None ->
     ManualSearch.search_f150_manual store question
     = "Error: Manual not loaded. Please restart the application.") /\
    (forall vs, store = Some vs -> vs question 5 = [] ->
     ManualSearch.search_f150_manual store question
     = "No relevant information found in the manual for this question.") /\
    (forall vs d, store = Some vs -> In d (vs question 5) ->
     exists pre post,
       ManualSearch.search_f150_manual store question
       = (pre ++ ManualSearch.nl ++ Py.strip (page_content d) ++ ManualSearch.nl ++ post)%string).
Proof.
  intros store question. split; [intros ->; reflexivity|]. split.
  - intros vs -> H. simpl. rewrite H. reflexivity.
  - intros vs d -> Hd. exact (search_output_chunk_lines vs question d Hd).
Qed.

Lemma manual_search_output_witness :
  exists pre post,
    ManualSearch.search_f150_manual (Some fuse_store) "fuse 33 purpose amperage"
    = (pre ++ ManualSearch.nl ++ "Fuse 33: 15A" ++ ManualSearch.nl ++ post)%string.
Proof.
  exact (proj2 (proj2 (manual_search_output (Some fuse_store) "fuse 33 purpose amperage"))
           fuse_store (mk_document "Fuse 33: 15A" (Some 240%Z)) eq_refl (or_introl eq_refl)).
Defined.

(* ================================================================= *)
(** ** Retrieved text in the compiled graph *)

Lemma apply_update_appends u st :
  u_rag_context u = None -> u_retrieved_documents u = None ->
  rag_context (apply_update u st) = rag_context st /\
  retrieved_documents (apply_update u st) = retrieved_documents st /\
  messages (apply_update u st) = (messages st ++ u_messages u)%list.
Proof.
  intros H1 H2. unfold apply_update. simpl. rewrite H1, H2. auto.
Qed.

Lemma tool_node_fields vs web err st :
  u_rag_context (ToolExec.tool_node vs web err st) = None /\
  u_retrieved_documents (ToolExec.tool_node vs web err st) = None.
Proof.
  unfold ToolExec.tool_node.
  destruct (last (map Some (messages st)) None) as [m|]; [destruct m|]; auto.
Qed.

Lemma pre_filter_fields dom st :
  u_rag_context (Filter.pre_filter_node dom st) = None /\
  u_retrieved_documents (Filter.pre_filter_node dom st) = None.
Proof.
  unfold Filter.pre_filter_node.
  destruct (Filter.last_user_message (messages st));
    [destruct (Filter.is_conversational_only _)|]; auto.
Qed.

Lemma tracker_fields fmt lim th st u out :
  TokenTracking.token_tracking_node fmt lim th st = Some (u, out) ->
  u_rag_context u = None /\ u_retrieved_documents u = None.
Proof.
  unfold TokenTracking.token_tracking_node.
  destruct (TokenTracking.last_ai_metadata (messages st)) as [md|].
  - destruct (_ && _).
    + intros H. injection H as <- _. auto.
    + destruct (Z.eqb lim 0); [discriminate|].
      intros H. injection H as <- _. auto.
  - intros H. injection H as <- _. auto.
Qed.

Lemma run_node_appends llm vs web err sys fmt node st st' :
  Graph.run_node llm (ToolExec.tool_node vs web err) sys fmt node st = Some st' ->
  rag_context st' = rag_context st /\
  retrieved_documents st' = retrieved_documents st /\
  exists added, messages st' = (messages st ++ added)%list.
Proof.
  unfold Graph.run_node.
  destruct (String.eqb node Graph.PRE_FILTER).
  { intros H. injection H as <-.
    destruct (pre_filter_fields "2018 F-150" st) as [H1 H2].
    destruct (apply_update_appends _ st H1 H2) as (? & ? & ?). eauto. }
  destruct (String.eqb node Graph.AGENT).
  { intros H. injection H as <-.
    unfold Graph.call_model. destruct (llm _) as [[c tcs] md].
    destruct (apply_update_appends
                (mk_update [AIMessage c tcs md] None None None None None None None)
                st eq_refl eq_refl) as (? & ? & ?). eauto. }
  destruct (String.eqb node Graph.TOOLS).
  { intros H. injection H as <-.
    destruct (tool_node_fields vs web err st) as [H1 H2].
    destruct (apply_update_appends _ st H1 H2) as (? & ? & ?). eauto. }
  destruct (String.eqb node Graph.TOKEN_TRACKER); [|discriminate].
  destruct (TokenTracking.token_tracking_node fmt Graph.CONTEXT_LIMIT 80 st)
    as [[u out]|] eqn:Ht; [|discriminate].
  intros H. injection H as <-.
  destruct (tracker_fields _ _ _ _ _ _ Ht) as [H1 H2].
  destruct (apply_update_appends _ st H1 H2) as (? & ? & ?). eauto.
Qed.

Lemma graph_run_appends llm vs web err sys fmt fuel :
  forall node st tr st' tr',
    Graph.run llm (ToolExec.tool_node vs web err) sys fmt fuel node st tr
    = Graph.Finished st' tr' ->
    rag_context st' = rag_context st /\
    retrieved_documents st' = retrieved_documents st /\
    exists added, messages st' = (messages st ++ added)%list.
Proof.
  induction fuel as [|f IH]; intros node st tr st' tr' H; [discriminate|].
  cbn [Graph.run] in H.
  destruct (String.eqb node Graph.END).
  { injection H as <- _. split; [reflexivity|]. split; [reflexivity|].
    exists []. rewrite app_nil_r. reflexivity. }
  destruct (Graph.run_node _ _ _ _ node st) as [st1|] eqn:E1; [|discriminate].
  destruct (Graph.next_node node st1) as [nxt|]; [|discriminate].
  destruct (run_node_appends _ _ _ _ _ _ _ _ _ E1) as (R1 & D1 & a1 & M1).
  destruct (IH _ _ _ _ _ H) as (R2 & D2 & a2 & M2).
  split; [congruence|]. split; [congruence|].
  exists (a1 ++ a2)%list. rewrite M2, M1, app_assoc. reflexivity.
Qed.

Lemma tool_node_search_message vs web err st rest c tcs md tc q :
  messages st = (rest ++ [AIMessage c tcs md])%list -> In tc tcs ->
  tc_name tc = "search_f150_manual" -> ToolExec.arg "question" tc = Some q ->
  In (ToolMessage (ManualSearch.search_f150_manual (Some vs) q) (tc_id tc))
     (u_messages (ToolExec.tool_node vs web err st)).
Proof.
  intros Hm Hin Hn Hq.
  assert (Hr : ToolExec.run_tool vs web err tc
               = ManualSearch.search_f150_manual (Some vs) q)
    by (unfold ToolExec.run_tool; rewrite Hn, Hq; reflexivity).
  rewrite <- Hr. unfold ToolExec.tool_node. rewrite Hm, last_some_app.
  exact (in_map (fun tc => ToolMessage (ToolExec.run_tool vs web err tc) (tc_id tc))
                tcs tc Hin).
Qed.

(** An agent that calls [search_f150_manual] once, then answers from the
    tool result. *)
Definition fuse_agent_llm (msgs : list message)
  : string * list tool_call * list (string * Z) :=
  match last (map Some msgs) None with
  | Some (ToolMessage _ _) =>
    ("Fuse 33 is a 15A fuse (manual page 240).", [],
     [("prompt_eval_count", 900%Z); ("eval_count", 40%Z)])
  | _ =>
    ("", [search_call "fuse 33" "call_1"],
     [("prompt_eval_count", 300%Z); ("eval_count", 20%Z)])
  end.

(** C1 (counterexample): in a turn of the compiled graph where the agent
    calls [search_f150_manual], the retrieved manual text (the chunk
    "Fuse 33: 15A") is persisted in [messages], inside the tool-result turn
    the [tools] node appends, while [rag_context] stays empty. *)
Lemma retrieval_context_not_persisted_counterexample :
  match Graph.invoke fuse_agent_llm
          (ToolExec.tool_node fuse_store (fun _ => "") (fun _ => ""))
          "" (fun _ _ => "") 10 (initial_state []) "What is fuse 33 for?" with
  | Graph.Finished st' _ =>
    In (ToolMessage (ManualSearch.search_f150_manual (Some fuse_store) "fuse 33") "call_1")
       (messages st') /\
    (exists pre post,
       ManualSearch.search_f150_manual (Some fuse_store) "fuse 33"
       = (pre ++ ManualSearch.nl ++ "Fuse 33: 15A" ++ ManualSearch.nl ++ post)%string) /\
    rag_context st' = ""
  | _ => False
  end.
Proof.
  destruct (search_output_chunk_lines fuse_store "fuse 33"
              (mk_document "Fuse 33: 15A" (Some 240%Z)))
    as (pre & post & Hs).
  { vm_compute. left. reflexivity. }
  destruct (Graph.invoke _ _ _ _ 10 (initial_state []) "What is fuse 33 for?")
    as [st' tr|tr|] eqn:E; [|vm_compute in E; discriminate | vm_compute in E; discriminate].
  vm_compute in E. injection E as <- _.
  split; [|split; [exists pre, post; exact Hs | reflexivity]].
  vm_compute. repeat (first [left; reflexivity | right]).
Qed.

(** C1 (amended): in the compiled graph the retrieval node and the chat
    node are not wired in; manual retrieval runs through the [tools] node,
    which appends, for each [search_f150_manual] call (with question [q]) of
    the last assistant turn, a tool-result turn whose text is the tool's
    full output, containing the stripped text of every retrieved chunk on
    lines of its own.  Every finished run of the graph only appends to
    [messages] and leaves [rag_context] and [retrieved_documents] as they
    were: the retrieved text is persisted in the message list, and the
    [rag_context] field is never written. *)
Theorem retrieval_text_persisted_by_tools :
  (forall llm vs web err sys fmt fuel node st tr st' tr',
     Graph.run llm (ToolExec.tool_node vs web err) sys fmt fuel node st tr
     = Graph.Finished st' tr' ->
     rag_context st' = rag_context st /\
     retrieved_documents st' = retrieved_documents st /\
     exists added, messages st' = (messages st ++ added)%list) /\
  (forall vs web err st rest c tcs md tc q,
     messages st = (rest ++ [AIMessage c tcs md])%list -> In tc tcs ->
     tc_name tc = "search_f150_manual" -> ToolExec.arg "question" tc = Some q ->
     In (ToolMessage (ManualSearch.search_f150_manual (Some vs) q) (tc_id tc))
        (u_messages (ToolExec.tool_node vs web err st)) /\
     forall d, In d (vs q 5) ->
       exists pre post,
         ManualSearch.search_f150_manual (Some vs) q
         = (pre ++ ManualSearch.nl ++ Py.strip (page_content d)
            ++ ManualSearch.nl ++ post)%string).
Proof.
  split.
  - intros llm vs web err sys fmt fuel. apply graph_run_appends.
  - intros vs web err st rest c tcs md tc q Hm Hin Hn Hq. split.
    + exact (tool_node_search_message vs web err st rest c tcs md tc q Hm Hin Hn Hq).
    + intros d Hd. exact (search_output_chunk_lines vs q d Hd).
Qed.

Lemma retrieval_text_persisted_by_tools_witness :
  In (ToolMessage (ManualSearch.search_f150_manual (Some fuse_store) "What is fuse 33 for?")
                  "call_1")
     (u_messages (ToolExec.tool_node fuse_store (fun _ => "") (fun _ => "") fuse_state)) /\
  exists pre post,
    ManualSearch.search_f150_manual (Some fuse_store) "What is fuse 33 for?"
    = (pre ++ ManualSearch.nl ++ "Fuse 33: 15A" ++ ManualSearch.nl ++ post)%string.
Proof.
  destruct (proj2 retrieval_text_persisted_by_tools fuse_store (fun _ => "") (fun _ => "")
              fuse_state [HumanMessage "What is fuse 33 for?"] ""
              [search_call "What is fuse 33 for?" "call_1"] []
              (search_call "What is fuse 33 for?" "call_1") "What is fuse 33 for?")
    as [Hin Hd].
  - reflexivity.
  - left. reflexivity.
  - reflexivity.
  - reflexivity.
  - split; [exact Hin|].
    apply (Hd (mk_document "Fuse 33: 15A" (Some 240%Z))).
    vm_compute. left. reflexivity.
Defined.
